(** * LuxPower Modbus integration: the configuration flow

    A shallow embedding of [custom_components/luxpower_modbus/config_flow.py]
    and of the constants of [custom_components/luxpower_modbus/const.py].

    Python values are a small tagged union, dictionaries are finite maps,
    exceptions are values of a sum type, and the coroutines that talk to the
    network, to the serial line and to Home Assistant are written in a state
    and error monad whose state records the calls that were made. *)

From Stdlib Require Import ZArith NArith List String Ascii Bool Lia.
From Stdlib.Strings Require Import Byte.
From Stdlib Require Import DecimalString DecimalPos.
From stdpp Require Import base option gmap strings list fin_maps.

Local Open Scope string_scope.
Local Open Scope list_scope.

(** ** Python values *)

(** A Python [str] is a sequence of Unicode code points. *)
Definition pystr : Type := list N.

(** A Python [bytes] object. *)
Definition bytes : Type := list byte.

(** The values a configuration dictionary holds: [None], [bool], [int]
    and [str]. *)
Inductive pyval : Type :=
| PyNone
| PyBool (b : bool)
| PyInt (z : Z)
| PyStr (s : pystr).

(** The exceptions of the flow.  Every constructor stands for a class that
    derives from [Exception]. *)
Inductive exn : Type :=
| Invalid (msg : string)          (* voluptuous.Invalid *)
| KeyError (key : string)
| ValueError
| TypeError
| AttributeError
| UnicodeEncodeError
| ImportError
| OSError
| OtherException (name : string).

(** The outcome of a Python expression: a value or a raised exception. *)
Inductive result (A : Type) : Type :=
| Ok (a : A)
| Raise (e : exn).
Arguments Ok {A} a.
Arguments Raise {A} e.

Definition result_bind {A B : Type} (r : result A) (k : A -> result B) : result B :=
  match r with
  | Ok a => k a
  | Raise e => Raise e
  end.

(** [except vol.Invalid] and [except Exception]. *)
Definition is_Invalid (e : exn) : bool :=
  match e with
  | Invalid _ => true
  | _ => false
  end.

Definition is_Exception (e : exn) : bool := true.

(** A string literal of the source as a Python [str]. *)
Definition code_points (s : string) : pystr :=
  map N_of_ascii (list_ascii_of_string s).

Definition Str (s : string) : pyval := PyStr (code_points s).

(** The decimal digits of an integer, as [str(int)] prints them. *)
Definition decimal (z : Z) : pystr :=
  code_points (NilZero.string_of_int (Z.to_int z)).

(** [str(value)]. *)
Definition py_str (value : pyval) : pystr :=
  match value with
  | PyNone => code_points "None"
  | PyBool true => code_points "True"
  | PyBool false => code_points "False"
  | PyInt z => decimal z
  | PyStr s => s
  end.

(** The integer a value is when it is an instance of [int] ([bool] is a
    subclass of [int]). *)
Definition int_value (value : pyval) : option Z :=
  match value with
  | PyInt z => Some z
  | PyBool true => Some 1%Z
  | PyBool false => Some 0%Z
  | _ => None
  end.

(** Truth value of an object, as [not x] and [x or y] test it. *)
Definition truthy (value : pyval) : bool :=
  match value with
  | PyNone => false
  | PyBool b => b
  | PyInt z => negb (z =? 0)%Z
  | PyStr s => negb (Nat.eqb (length s) 0)
  end.

Definition py_or (x y : pyval) : pyval := if truthy x then x else y.

Definition pystr_eqb (s t : pystr) : bool := bool_decide (s = t).

(** [a == b]. *)
Definition py_eq (a b : pyval) : bool :=
  match a, b with
  | PyNone, PyNone => true
  | PyStr s, PyStr t => pystr_eqb s t
  | _, _ =>
      match int_value a, int_value b with
      | Some x, Some y => (x =? y)%Z
      | _, _ => false
      end
  end.

(** UTF-8, the default encoding of [str.encode()].  Surrogates cannot be
    encoded; numbers from 0x110000 on are not code points. *)
Definition byte_of_N (n : N) : byte :=
  match Byte.of_N n with
  | Some b => b
  | None => x00
  end.

Definition utf8 (c : N) : option bytes :=
  if (c <? 0x80)%N then Some [byte_of_N c]
  else if (c <? 0x800)%N then
    Some [byte_of_N (0xC0 + c / 64); byte_of_N (0x80 + c mod 64)]
  else if ((0xD800 <=? c) && (c <=? 0xDFFF))%N then None
  else if (c <? 0x10000)%N then
    Some [byte_of_N (0xE0 + c / 4096); byte_of_N (0x80 + (c / 64) mod 64);
          byte_of_N (0x80 + c mod 64)]
  else if (c <? 0x110000)%N then
    Some [byte_of_N (0xF0 + c / 262144); byte_of_N (0x80 + (c / 4096) mod 64);
          byte_of_N (0x80 + (c / 64) mod 64); byte_of_N (0x80 + c mod 64)]
  else None.

Fixpoint encode_utf8 (s : pystr) : option bytes :=
  match s with
  | [] => Some []
  | c :: s' =>
      match utf8 c, encode_utf8 s' with
      | Some b, Some bs => Some (b ++ bs)
      | _, _ => None
      end
  end.

(** [value.encode()]: only [str] has the method. *)
Definition py_encode (value : pyval) : result bytes :=
  match value with
  | PyStr s =>
      match encode_utf8 s with
      | Some b => Ok b
      | None => Raise UnicodeEncodeError
      end
  | _ => Raise AttributeError
  end.

(** The format specification [010d]: sign-aware zero padding to a width of
    ten.  [str] has no format code [d], and [None] accepts no format
    specification. *)
Definition zero_pad (width : nat) (digits : pystr) : pystr :=
  repeat 48%N (width - length digits) ++ digits.

Definition format_010d (value : pyval) : result pystr :=
  match value with
  | PyStr _ => Raise ValueError
  | PyNone => Raise TypeError
  | _ =>
      match int_value value with
      | Some z =>
          if (z <? 0)%Z then Ok (45%N :: zero_pad 9 (decimal (- z)))
          else Ok (zero_pad 10 (decimal z))
      | None => Raise TypeError
      end
  end.

(** ** Dictionaries *)

Abbreviation dict := (gmap string pyval).

(** [d[key]]. *)
Definition getitem (d : dict) (key : string) : result pyval :=
  match d !! key with
  | Some v => Ok v
  | None => Raise (KeyError key)
  end.

(** [d.get(key, fallback)] and [d.get(key)]. *)
Definition get_or (d : dict) (key : string) (fallback : pyval) : pyval :=
  match d !! key with
  | Some v => v
  | None => fallback
  end.

Definition get (d : dict) (key : string) : pyval := get_or d key PyNone.

(** ** const.py *)

Definition CONF_PROTOCOL := "protocol".
Definition PROTOCOL_TCP := Str "tcp".
Definition PROTOCOL_RTU := Str "rtu".

Definition CONF_HOST := "host".
Definition CONF_PORT := "port".

Definition CONF_SERIAL_PORT := "serial_port".
Definition CONF_BAUDRATE := "baudrate".
Definition CONF_PARITY := "parity".
Definition CONF_STOPBITS := "stopbits".
Definition CONF_BYTESIZE := "bytesize".
Definition CONF_SLAVE_ID := "slave_id".

Definition CONF_DONGLE_SERIAL := "dongle_serial".
Definition CONF_INVERTER_SERIAL := "inverter_serial".
Definition CONF_POLL_INTERVAL := "poll_interval".
Definition CONF_ENTITY_PREFIX := "entity_prefix".
Definition CONF_RATED_POWER := "rated_power".
Definition CONF_READ_ONLY := "read_only".
Definition CONF_REGISTER_BLOCK_SIZE := "register_block_size".
Definition CONF_CONNECTION_RETRIES := "connection_retries".
Definition CONF_ENABLE_DEVICE_GROUPING := "enable_device_grouping".

Definition DEFAULT_POLL_INTERVAL : Z := 60.
Definition DEFAULT_ENTITY_PREFIX := Str EmptyString.
Definition DEFAULT_RATED_POWER : Z := 5000.
Definition DEFAULT_READ_ONLY := false.
Definition DEFAULT_PORT : Z := 8000.
Definition DEFAULT_REGISTER_BLOCK_SIZE : Z := 125.
Definition DEFAULT_CONNECTION_RETRIES : Z := 3.
Definition DEFAULT_ENABLE_DEVICE_GROUPING := true.

Definition DEFAULT_BAUDRATE : Z := 19200.
Definition DEFAULT_PARITY := Str "N".
Definition DEFAULT_STOPBITS : Z := 1.
Definition DEFAULT_BYTESIZE : Z := 8.
Definition DEFAULT_SLAVE_ID : Z := 1.

Definition BAUDRATE_OPTIONS : list pyval :=
  [PyInt 9600; PyInt 19200; PyInt 38400; PyInt 57600; PyInt 115200].
Definition PARITY_OPTIONS : list pyval := [Str "N"; Str "E"; Str "O"].
Definition STOPBITS_OPTIONS : list pyval := [PyInt 1; PyInt 2].
Definition BYTESIZE_OPTIONS : list pyval := [PyInt 7; PyInt 8].

Definition RTU_MIN_POLL_INTERVAL : Z := 1.

Definition LEGACY_REGISTER_BLOCK_SIZE : Z := 40.

#[local] Set Warnings "-register-all".

(** ** voluptuous

    The validators the schemas of the flow are built from.  A class used as
    a validator accepts the instances of the class; [Range] accepts the
    numbers between its bounds; [In] accepts what is equal to a member of
    its container; [All] runs its validators one after the other. *)

Inductive validator : Type :=
| vol_str
| vol_int
| vol_bool
| vol_Range (min max : Z)
| vol_In (container : list pyval)
| vol_All (validators : list validator).

Fixpoint accepts (v : validator) (value : pyval) : bool :=
  match v with
  | vol_str => match value with PyStr _ => true | _ => false end
  | vol_int => match value with PyInt _ | PyBool _ => true | _ => false end
  | vol_bool => match value with PyBool _ => true | _ => false end
  | vol_Range lo hi =>
      match int_value value with
      | Some z => (lo <=? z)%Z && (z <=? hi)%Z
      | None => false
      end
  | vol_In container => existsb (py_eq value) container
  | vol_All vs => forallb (fun v' => accepts v' value) vs
  end.

(** A key of a schema: [vol.Required(key, default=...)] or
    [vol.Optional(key, default=...)], and the validator of its value. *)
Inductive marker : Type := Required | Optional.

Record field : Type := Field {
  f_marker : marker;
  f_key : string;
  f_default : option pyval;
  f_check : validator
}.

Abbreviation schema := (list field).

Definition find_field (s : schema) (key : string) : option field :=
  find (fun f => String.eqb (f_key f) key) s.

(** Does the schema accept [value] under [key]? *)
Definition field_accepts (s : schema) (key : string) (value : pyval) : bool :=
  match find_field s key with
  | Some f => accepts (f_check f) value
  | None => false
  end.

(** The value the schema fills in when [key] is not submitted. *)
Definition field_default (s : schema) (key : string) : option pyval :=
  match find_field s key with
  | Some f => f_default f
  | None => None
  end.

(** What a dictionary that went through the schema satisfies: every key of
    the schema is there with a value its validator accepts, but for an
    optional key without a default, which may be missing. *)
Definition satisfies (s : schema) (d : dict) : bool :=
  forallb (fun f =>
    match d !! f_key f with
    | Some v => accepts (f_check f) v
    | None =>
        match f_marker f, f_default f with
        | Optional, None => true
        | _, _ => false
        end
    end) s.

(** ** The validators of config_flow.py *)

(** [int(value)], given how [int] reads a [str]. *)
Definition py_int (int_of_str : pystr -> option Z) (value : pyval) : result Z :=
  match value with
  | PyNone => Raise TypeError
  | PyStr s =>
      match int_of_str s with
      | Some z => Ok z
      | None => Raise ValueError
      end
  | _ =>
      match int_value value with
      | Some z => Ok z
      | None => Raise TypeError
      end
  end.

Definition validate_serial (value : pyval) : result pystr :=
  let value := py_str value in
  if negb (Nat.eqb (length value) 10) then
    Raise (Invalid "Serial number must be exactly 10 characters.")
  else Ok value.

Definition validate_connection_retries (int_of_str : pystr -> option Z)
    (value : pyval) : result Z :=
  result_bind (py_int int_of_str value) (fun value =>
  if (value <? 1)%Z || (value >? 10)%Z then
    Raise (Invalid "Connection retry attempts must be between 1 and 10.")
  else Ok value).

(** ** The schemas of the setup flow *)

Definition tcp_data_schema : schema :=
  [ Field Required CONF_HOST None vol_str;
    Field Required CONF_PORT (Some (PyInt DEFAULT_PORT)) vol_int;
    Field Required CONF_DONGLE_SERIAL None vol_str;
    Field Required CONF_INVERTER_SERIAL None vol_str;
    Field Required CONF_POLL_INTERVAL (Some (PyInt DEFAULT_POLL_INTERVAL))
      (vol_All [vol_int; vol_Range 2 600]);
    Field Optional CONF_ENTITY_PREFIX (Some DEFAULT_ENTITY_PREFIX) vol_str;
    Field Required CONF_RATED_POWER (Some (PyInt DEFAULT_RATED_POWER))
      (vol_All [vol_int; vol_Range 1000 100000]);
    Field Optional CONF_READ_ONLY (Some (PyBool DEFAULT_READ_ONLY)) vol_bool;
    Field Optional CONF_REGISTER_BLOCK_SIZE (Some (PyInt DEFAULT_REGISTER_BLOCK_SIZE))
      (vol_In [PyInt DEFAULT_REGISTER_BLOCK_SIZE; PyInt LEGACY_REGISTER_BLOCK_SIZE]);
    Field Required CONF_CONNECTION_RETRIES (Some (PyInt DEFAULT_CONNECTION_RETRIES))
      (vol_All [vol_int; vol_Range 1 10]);
    Field Optional CONF_ENABLE_DEVICE_GROUPING
      (Some (PyBool DEFAULT_ENABLE_DEVICE_GROUPING)) vol_bool ].

Definition fallback_serial_ports : list pystr :=
  map code_points
    ["/dev/ttyUSB0"; "/dev/ttyUSB1"; "/dev/ttyAMA0"; "COM1"; "COM2"; "COM3"].

Definition rtu_data_schema (serial_ports : list pystr) : schema :=
  [ Field Required CONF_SERIAL_PORT None (vol_In (map PyStr serial_ports));
    Field Required CONF_BAUDRATE (Some (PyInt DEFAULT_BAUDRATE)) (vol_In BAUDRATE_OPTIONS);
    Field Required CONF_PARITY (Some DEFAULT_PARITY) (vol_In PARITY_OPTIONS);
    Field Required CONF_STOPBITS (Some (PyInt DEFAULT_STOPBITS)) (vol_In STOPBITS_OPTIONS);
    Field Required CONF_BYTESIZE (Some (PyInt DEFAULT_BYTESIZE)) (vol_In BYTESIZE_OPTIONS);
    Field Required CONF_SLAVE_ID (Some (PyInt DEFAULT_SLAVE_ID))
      (vol_All [vol_int; vol_Range 1 247]);
    Field Required CONF_POLL_INTERVAL
      (Some (PyInt (Z.max DEFAULT_POLL_INTERVAL RTU_MIN_POLL_INTERVAL)))
      (vol_All [vol_int; vol_Range RTU_MIN_POLL_INTERVAL 600]);
    Field Optional CONF_ENTITY_PREFIX (Some DEFAULT_ENTITY_PREFIX) vol_str;
    Field Required CONF_RATED_POWER (Some (PyInt DEFAULT_RATED_POWER))
      (vol_All [vol_int; vol_Range 1000 100000]);
    Field Optional CONF_READ_ONLY (Some (PyBool DEFAULT_READ_ONLY)) vol_bool;
    Field Optional CONF_REGISTER_BLOCK_SIZE (Some (PyInt DEFAULT_REGISTER_BLOCK_SIZE))
      (vol_In [PyInt DEFAULT_REGISTER_BLOCK_SIZE; PyInt LEGACY_REGISTER_BLOCK_SIZE]);
    Field Required CONF_CONNECTION_RETRIES (Some (PyInt DEFAULT_CONNECTION_RETRIES))
      (vol_All [vol_int; vol_Range 1 10]);
    Field Optional CONF_ENABLE_DEVICE_GROUPING
      (Some (PyBool DEFAULT_ENABLE_DEVICE_GROUPING)) vol_bool ].

(** ** The schemas of the options flow: the defaults are the current values *)

Definition tcp_options_schema (current_config : dict) : schema :=
  [ Field Required CONF_HOST (Some (get current_config CONF_HOST)) vol_str;
    Field Required CONF_PORT (Some (get current_config CONF_PORT)) vol_int;
    Field Required CONF_DONGLE_SERIAL (Some (get current_config CONF_DONGLE_SERIAL)) vol_str;
    Field Required CONF_INVERTER_SERIAL (Some (get current_config CONF_INVERTER_SERIAL)) vol_str;
    Field Required CONF_POLL_INTERVAL (Some (get current_config CONF_POLL_INTERVAL))
      (vol_All [vol_int; vol_Range 2 600]);
    Field Optional CONF_ENTITY_PREFIX (Some (get_or current_config CONF_ENTITY_PREFIX (Str EmptyString)))
      (vol_All [vol_str]);
    Field Required CONF_RATED_POWER (Some (get current_config CONF_RATED_POWER))
      (vol_All [vol_int; vol_Range 1000 100000]);
    Field Optional CONF_READ_ONLY
      (Some (get_or current_config CONF_READ_ONLY (PyBool DEFAULT_READ_ONLY))) vol_bool;
    Field Optional CONF_REGISTER_BLOCK_SIZE
      (Some (get_or current_config CONF_REGISTER_BLOCK_SIZE (PyInt DEFAULT_REGISTER_BLOCK_SIZE)))
      (vol_In [PyInt DEFAULT_REGISTER_BLOCK_SIZE; PyInt LEGACY_REGISTER_BLOCK_SIZE]);
    Field Required CONF_CONNECTION_RETRIES
      (Some (get_or current_config CONF_CONNECTION_RETRIES (PyInt DEFAULT_CONNECTION_RETRIES)))
      (vol_All [vol_int; vol_Range 1 10]);
    Field Optional CONF_ENABLE_DEVICE_GROUPING
      (Some (get_or current_config CONF_ENABLE_DEVICE_GROUPING
               (PyBool DEFAULT_ENABLE_DEVICE_GROUPING))) vol_bool ].

Definition rtu_options_schema (serial_ports : list pystr) (current_config : dict) : schema :=
  [ Field Required CONF_SERIAL_PORT (Some (get current_config CONF_SERIAL_PORT))
      (vol_In (map PyStr serial_ports));
    Field Required CONF_BAUDRATE
      (Some (get_or current_config CONF_BAUDRATE (PyInt DEFAULT_BAUDRATE)))
      (vol_In BAUDRATE_OPTIONS);
    Field Required CONF_PARITY (Some (get_or current_config CONF_PARITY DEFAULT_PARITY))
      (vol_In PARITY_OPTIONS);
    Field Required CONF_STOPBITS
      (Some (get_or current_config CONF_STOPBITS (PyInt DEFAULT_STOPBITS)))
      (vol_In STOPBITS_OPTIONS);
    Field Required CONF_BYTESIZE
      (Some (get_or current_config CONF_BYTESIZE (PyInt DEFAULT_BYTESIZE)))
      (vol_In BYTESIZE_OPTIONS);
    Field Required CONF_SLAVE_ID
      (Some (get_or current_config CONF_SLAVE_ID (PyInt DEFAULT_SLAVE_ID)))
      (vol_All [vol_int; vol_Range 1 247]);
    Field Required CONF_POLL_INTERVAL (Some (get current_config CONF_POLL_INTERVAL))
      (vol_All [vol_int; vol_Range RTU_MIN_POLL_INTERVAL 600]);
    Field Optional CONF_ENTITY_PREFIX (Some (get_or current_config CONF_ENTITY_PREFIX (Str EmptyString)))
      (vol_All [vol_str]);
    Field Required CONF_RATED_POWER (Some (get current_config CONF_RATED_POWER))
      (vol_All [vol_int; vol_Range 1000 100000]);
    Field Optional CONF_READ_ONLY
      (Some (get_or current_config CONF_READ_ONLY (PyBool DEFAULT_READ_ONLY))) vol_bool;
    Field Optional CONF_REGISTER_BLOCK_SIZE
      (Some (get_or current_config CONF_REGISTER_BLOCK_SIZE (PyInt DEFAULT_REGISTER_BLOCK_SIZE)))
      (vol_In [PyInt DEFAULT_REGISTER_BLOCK_SIZE; PyInt LEGACY_REGISTER_BLOCK_SIZE]);
    Field Required CONF_CONNECTION_RETRIES
      (Some (get_or current_config CONF_CONNECTION_RETRIES (PyInt DEFAULT_CONNECTION_RETRIES)))
      (vol_All [vol_int; vol_Range 1 10]);
    Field Optional CONF_ENABLE_DEVICE_GROUPING
      (Some (get_or current_config CONF_ENABLE_DEVICE_GROUPING
               (PyBool DEFAULT_ENABLE_DEVICE_GROUPING))) vol_bool ].

(** ** The world of the flow *)

(** What [LxpResponse(buffer)] exposes to the flow. *)
Record lxp_response : Type := {
  packet_error : bool;
  parsed_values_dictionary : gmap Z Z
}.

(** What [client.read_holding_registers] returns. *)
Record modbus_pdu : Type := {
  isError : bool;
  registers : list Z
}.

(** The configuration entry Home Assistant stores. *)
Record config_entry : Type := ConfigEntry {
  data : dict;
  options : dict
}.

(** The calls the flow makes on the network, on the serial line and on
    Home Assistant, in the order they are made. *)
Inductive event : Type :=
| EvOpenConnection (host port : pyval)
| EvWrite (req : bytes)
| EvDrain
| EvRead (n : Z)
| EvWriterClose
| EvWaitClosed
| EvImportPymodbus
| EvModbusSerialClient (port baudrate parity stopbits bytesize : pyval) (timeout : Z)
| EvConnect
| EvReadHoldingRegisters (address count : Z) (slave : pyval)
| EvClientClose
| EvComports
| EvUpdateEntry (new_data new_options : dict)
| EvReload.

Record world : Type := World {
  log : list event;
  entry : config_entry
}.

(** How everything outside config_flow.py answers: the [int] builtin on a
    [str]; the request builder, the response parser and the model decoder
    of the integration, whose sources are in other files; the asyncio
    stream; the pymodbus client; the serial port list; Home Assistant's
    reload.  Every call may raise. *)
Record environment : Type := {
  int_of_str : pystr -> option Z;
  prepare_packet_for_read : bytes -> bytes -> Z -> Z -> Z -> result bytes;
  LxpResponse : bytes -> result lxp_response;
  decode_model_from_registers : gmap Z Z -> result (option pystr);
  open_connection : pyval -> pyval -> result unit;
  writer_write : bytes -> result unit;
  writer_drain : result unit;
  reader_read : Z -> result bytes;
  writer_close : result unit;
  writer_wait_closed : result unit;
  import_pymodbus : result unit;
  ModbusSerialClient : pyval -> pyval -> pyval -> pyval -> pyval -> Z -> result unit;
  client_connect : result bool;
  read_holding_registers : Z -> Z -> pyval -> result modbus_pdu;
  client_close : result unit;
  comports : result (list pystr);
  async_reload : result unit
}.

(** ** The monad of the coroutines: state and exceptions *)

Definition io (S A : Type) : Type := S -> S * result A.

Definition ret {S A : Type} (a : A) : io S A := fun s => (s, Ok a).

Definition bind {S A B : Type} (m : io S A) (k : A -> io S B) : io S B :=
  fun s =>
    match m s with
    | (s', Ok a) => k a s'
    | (s', Raise e) => (s', Raise e)
    end.

Notation "'let*' x ':=' m 'in' k" := (bind m (fun x => k))
  (at level 10, x pattern, m at level 100, k at level 200).
Notation "m ';;' k" := (bind m (fun _ => k))
  (at level 100, k at level 200, right associativity).

(** A pure expression inside a coroutine. *)
Definition lift {S A : Type} (r : result A) : io S A := fun s => (s, r).

(** [try: body except <catches>: handler]. *)
Definition try_except {S A : Type} (body : io S A) (catches : exn -> bool)
    (handler : io S A) : io S A :=
  fun s =>
    match body s with
    | (s', Raise e) => if catches e then handler s' else (s', Raise e)
    | r => r
    end.

(** [try: body except <c1>: h1 except <c2>: h2]: the first clause that
    matches handles the exception. *)
Definition try_except2 {S A : Type} (body : io S A)
    (c1 : exn -> bool) (h1 : io S A) (c2 : exn -> bool) (h2 : io S A) : io S A :=
  fun s =>
    match body s with
    | (s', Raise e) =>
        if c1 e then h1 s' else if c2 e then h2 s' else (s', Raise e)
    | r => r
    end.

(** A call on the outside: it is logged, then it answers. *)
Definition emit (ev : event) : io world unit :=
  fun w => (World (log w ++ [ev]) (entry w), Ok tt).

Definition call {A : Type} (ev : event) (answer : result A) : io world A :=
  emit ev;; lift answer.

(** [hass.config_entries.async_update_entry(entry, data=..., options=...)]. *)
Definition async_update_entry (new_data new_options : dict) : io world unit :=
  fun w => (World (log w ++ [EvUpdateEntry new_data new_options])
                  (ConfigEntry new_data new_options), Ok tt).

(** A step of a flow has a local dictionary [errors]; the state of a step
    is the world and that dictionary. *)
Abbreviation errors_dict := (gmap string string).

Definition in_world {L A : Type} (m : io world A) : io (world * L) A :=
  fun s => let '(w', r) := m (fst s) in ((w', snd s), r).

Definition set_error (key code : string) : io (world * errors_dict) unit :=
  fun s => ((fst s, <[key := code]> (snd s)), Ok tt).

Definition get_errors : io (world * errors_dict) errors_dict :=
  fun s => (s, Ok (snd s)).

Definition no_errors (errors : errors_dict) : bool := bool_decide (errors = ∅).

(** A step starts with [errors = {}]. *)
Definition run_step {A : Type} (body : io (world * errors_dict) A) : io world A :=
  fun w => let '(s', r) := body (w, ∅) in (fst s', r).

(** ** The model probes *)

Definition is_empty_bytes (b : bytes) : bool :=
  match b with
  | [] => true
  | _ => false
  end.

Definition get_inverter_model_from_device_tcp (E : environment)
    (host port dongle_serial inverter_serial : pyval) : io world (option pystr) :=
  try_except
    (call (EvOpenConnection host port) (open_connection E host port);;
     let* dongle := lift (py_encode dongle_serial) in
     let* inverter := lift (py_encode inverter_serial) in
     let* req := lift (prepare_packet_for_read E dongle inverter 7 2 3) in
     call (EvWrite req) (writer_write E req);;
     call EvDrain (writer_drain E);;
     let* response_buf := call (EvRead 512) (reader_read E 512) in
     call EvWriterClose (writer_close E);;
     call EvWaitClosed (writer_wait_closed E);;
     if is_empty_bytes response_buf then ret None else
     let* response := lift (LxpResponse E response_buf) in
     if packet_error response then ret None else
     let* model := lift (decode_model_from_registers E (parsed_values_dictionary response)) in
     ret model)
    is_Exception
    (ret None).

(** [{7 + i: result.registers[i] for i in range(len(result.registers))}]. *)
Definition registers_dict (regs : list Z) : gmap Z Z :=
  list_to_map (imap (fun i r => ((7 + Z.of_nat i)%Z, r)) regs).

Definition get_inverter_model_from_device_rtu (E : environment)
    (serial_port baudrate parity stopbits bytesize slave_id : pyval)
    : io world (option pystr) :=
  try_except
    (call EvImportPymodbus (import_pymodbus E);;
     call (EvModbusSerialClient serial_port baudrate parity stopbits bytesize 3)
          (ModbusSerialClient E serial_port baudrate parity stopbits bytesize 3);;
     let* connected := call EvConnect (client_connect E) in
     if negb connected then ret None else
     let* result := call (EvReadHoldingRegisters 7 2 slave_id)
                         (read_holding_registers E 7 2 slave_id) in
     call EvClientClose (client_close E);;
     if isError result then ret None else
     let* model := lift (decode_model_from_registers E (registers_dict (registers result))) in
     ret model)
    is_Exception
    (ret None).

(** [get_serial_ports()]. *)
Definition get_serial_ports (E : environment) : io world (list pystr) :=
  try_except (call EvComports (comports E)) is_Exception (ret []).

(** ** The setup flow *)

(** What a step returns: the form again, with the errors found, or the
    request to create the entry.  The values that pre-fill the form
    ([add_suggested_values_to_schema]) are not part of the result. *)
Inductive flow_result : Type :=
| ShowForm (step_id : string) (data_schema : schema) (errors : errors_dict)
| CreateEntry (title : pyval) (entry_data : dict).

(** The value of the variable [model]: a string or [None]. *)
Definition model_value (model : option pystr) : pyval :=
  match model with
  | Some s => PyStr s
  | None => PyNone
  end.

Definition async_step_tcp (E : environment) (user_input : option dict)
    : io world flow_result :=
  run_step
    (let* returned :=
       match user_input with
       | None => ret None
       | Some user_input =>
           try_except
             (let* serial := lift (getitem user_input CONF_DONGLE_SERIAL) in
              lift (validate_serial serial);; ret tt)
             is_Invalid (set_error CONF_DONGLE_SERIAL "invalid_serial");;
           try_except
             (let* serial := lift (getitem user_input CONF_INVERTER_SERIAL) in
              lift (validate_serial serial);; ret tt)
             is_Invalid (set_error CONF_INVERTER_SERIAL "invalid_serial");;
           try_except
             (lift (validate_connection_retries (int_of_str E)
                      (get_or user_input CONF_CONNECTION_RETRIES
                         (PyInt DEFAULT_CONNECTION_RETRIES)));; ret tt)
             is_Invalid (set_error CONF_CONNECTION_RETRIES "invalid_connection_retries");;
           let* errors := get_errors in
           if no_errors errors then
             let* host := lift (getitem user_input CONF_HOST) in
             let* port := lift (getitem user_input CONF_PORT) in
             let* dongle_serial := lift (getitem user_input CONF_DONGLE_SERIAL) in
             let* inverter_serial := lift (getitem user_input CONF_INVERTER_SERIAL) in
             let* model := in_world (get_inverter_model_from_device_tcp E
                                       host port dongle_serial inverter_serial) in
             if negb (truthy (model_value model)) then
               set_error "base" "model_fetch_failed";; ret None
             else
               let user_input := <[CONF_PROTOCOL := PROTOCOL_TCP]> user_input in
               let user_input := <["model" := model_value model]> user_input in
               let title := py_or (get user_input CONF_ENTITY_PREFIX)
                                  (Str "Luxpower Inverter") in
               ret (Some (CreateEntry title user_input))
           else ret None
       end in
     match returned with
     | Some r => ret r
     | None =>
         let* errors := get_errors in
         ret (ShowForm "tcp" tcp_data_schema errors)
     end).

Definition serial_ports_or_fallback (serial_ports : list pystr) : list pystr :=
  match serial_ports with
  | [] => fallback_serial_ports
  | _ => serial_ports
  end.

Definition async_step_rtu (E : environment) (user_input : option dict)
    : io world flow_result :=
  run_step
    (let* returned :=
       match user_input with
       | None => ret None
       | Some user_input =>
           try_except
             (lift (validate_connection_retries (int_of_str E)
                      (get_or user_input CONF_CONNECTION_RETRIES
                         (PyInt DEFAULT_CONNECTION_RETRIES)));; ret tt)
             is_Invalid (set_error CONF_CONNECTION_RETRIES "invalid_connection_retries");;
           let* errors := get_errors in
           if no_errors errors then
             try_except
               (let* serial_port := lift (getitem user_input CONF_SERIAL_PORT) in
                let* baudrate := lift (getitem user_input CONF_BAUDRATE) in
                let* parity := lift (getitem user_input CONF_PARITY) in
                let* stopbits := lift (getitem user_input CONF_STOPBITS) in
                let* bytesize := lift (getitem user_input CONF_BYTESIZE) in
                let* slave_id := lift (getitem user_input CONF_SLAVE_ID) in
                let* model := in_world (get_inverter_model_from_device_rtu E
                                          serial_port baudrate parity stopbits
                                          bytesize slave_id) in
                if negb (truthy (model_value model)) then
                  set_error "base" "model_fetch_failed_rtu";; ret None
                else
                  let user_input := <[CONF_PROTOCOL := PROTOCOL_RTU]> user_input in
                  let user_input := <["model" := model_value model]> user_input in
                  let user_input := <[CONF_DONGLE_SERIAL := Str "RTU_DEVICE"]> user_input in
                  let* slave_id := lift (getitem user_input CONF_SLAVE_ID) in
                  let* padded := lift (format_010d slave_id) in
                  let user_input :=
                    <[CONF_INVERTER_SERIAL := PyStr (code_points "RTU_" ++ padded)]>
                      user_input in
                  let title := py_or (get user_input CONF_ENTITY_PREFIX)
                                     (Str "Luxpower Inverter RTU") in
                  ret (Some (CreateEntry title user_input)))
               is_Exception (set_error "base" "unknown";; ret None)
           else ret None
       end in
     match returned with
     | Some r => ret r
     | None =>
         let* serial_ports := in_world (get_serial_ports E) in
         let serial_ports := serial_ports_or_fallback serial_ports in
         let* errors := get_errors in
         ret (ShowForm "rtu" (rtu_data_schema serial_ports) errors)
     end).

(** [vol.In] of a dictionary tests its keys. *)
Definition user_data_schema : schema :=
  [ Field Required CONF_PROTOCOL (Some PROTOCOL_TCP) (vol_In [PROTOCOL_TCP; PROTOCOL_RTU]) ].

(** The first step: the protocol chosen decides which form comes next. *)
Definition async_step_user (E : environment) (user_input : option dict)
    : io world flow_result :=
  match user_input with
  | Some user_input =>
      let* protocol := lift (getitem user_input CONF_PROTOCOL) in
      if py_eq protocol PROTOCOL_TCP then async_step_tcp E None
      else async_step_rtu E None
  | None => ret (ShowForm "user" user_data_schema ∅)
  end.

(** ** The options flow *)

Definition get_entry : io world config_entry := fun w => (w, Ok (entry w)).

(** [{**self.config_entry.data, **self.config_entry.options}]: the right
    operand of a dictionary merge wins. *)
Definition current_config_of (e : config_entry) : dict := options e ∪ data e.

Definition async_step_init (E : environment) (user_input : option dict)
    : io world flow_result :=
  run_step
    (let* config_entry := in_world get_entry in
     let current_config := current_config_of config_entry in
     let protocol := get_or current_config CONF_PROTOCOL PROTOCOL_TCP in
     let* returned :=
       match user_input with
       | None => ret None
       | Some user_input =>
           try_except2
             (try_except
                (lift (validate_connection_retries (int_of_str E)
                         (get_or user_input CONF_CONNECTION_RETRIES
                            (PyInt DEFAULT_CONNECTION_RETRIES)));; ret tt)
                is_Invalid
                (set_error CONF_CONNECTION_RETRIES "invalid_connection_retries");;
              let* errors := get_errors in
              if no_errors errors then
                (* [model] is bound on the paths that leave [errors] empty *)
                let* model :=
                  if py_eq protocol PROTOCOL_TCP then
                    try_except
                      (let* serial := lift (getitem user_input CONF_DONGLE_SERIAL) in
                       lift (validate_serial serial);; ret tt)
                      is_Invalid (set_error CONF_DONGLE_SERIAL "invalid_serial");;
                    try_except
                      (let* serial := lift (getitem user_input CONF_INVERTER_SERIAL) in
                       lift (validate_serial serial);; ret tt)
                      is_Invalid (set_error CONF_INVERTER_SERIAL "invalid_serial");;
                    let* errors := get_errors in
                    if no_errors errors then
                      let* host := lift (getitem user_input CONF_HOST) in
                      let* port := lift (getitem user_input CONF_PORT) in
                      let* dongle_serial := lift (getitem user_input CONF_DONGLE_SERIAL) in
                      let* inverter_serial :=
                        lift (getitem user_input CONF_INVERTER_SERIAL) in
                      let* model := in_world (get_inverter_model_from_device_tcp E
                                                host port dongle_serial inverter_serial) in
                      (if negb (truthy (model_value model))
                       then set_error "base" "model_fetch_failed" else ret tt);;
                      ret model
                    else ret None
                  else
                    let* serial_port := lift (getitem user_input CONF_SERIAL_PORT) in
                    let* baudrate := lift (getitem user_input CONF_BAUDRATE) in
                    let* parity := lift (getitem user_input CONF_PARITY) in
                    let* stopbits := lift (getitem user_input CONF_STOPBITS) in
                    let* bytesize := lift (getitem user_input CONF_BYTESIZE) in
                    let* slave_id := lift (getitem user_input CONF_SLAVE_ID) in
                    let* model := in_world (get_inverter_model_from_device_rtu E
                                              serial_port baudrate parity stopbits
                                              bytesize slave_id) in
                    (if negb (truthy (model_value model))
                     then set_error "base" "model_fetch_failed_rtu" else ret tt);;
                    ret model in
                let* errors := get_errors in
                if no_errors errors then
                  let new_data := user_input ∪ current_config in
                  let new_data := <["model" := model_value model]> new_data in
                  in_world (async_update_entry new_data ∅);;
                  in_world (call EvReload (async_reload E));;
                  ret (Some (CreateEntry (Str EmptyString) ∅))
                else ret None
              else ret None)
             is_Invalid (set_error "base" "invalid_serial";; ret None)
             is_Exception (set_error "base" "unknown";; ret None)
       end in
     match returned with
     | Some r => ret r
     | None =>
         if py_eq protocol PROTOCOL_TCP then
           let* errors := get_errors in
           ret (ShowForm "init" (tcp_options_schema current_config) errors)
         else
           let* serial_ports := in_world (get_serial_ports E) in
           let serial_ports := serial_ports_or_fallback serial_ports in
           let* errors := get_errors in
           ret (ShowForm "init" (rtu_options_schema serial_ports current_config) errors)
     end).

(** ** What the options flow requires of a submission

    The checks [async_step_init] runs on [user_input] before it stores
    anything, for the protocol of the current configuration: the retry
    count validates; under TCP both serials validate; the fields the probe
    is called with are there; and the probe, run in world [w], ends in world
    [w1] with a model that is not empty. *)
Definition reconfiguration_passes (E : environment) (current_config user_input : dict)
    (w : world) (model : pystr) (w1 : world) : Prop :=
  (exists n, validate_connection_retries (int_of_str E)
               (get_or user_input CONF_CONNECTION_RETRIES
                  (PyInt DEFAULT_CONNECTION_RETRIES)) = Ok n) /\
  truthy (PyStr model) = true /\
  if py_eq (get_or current_config CONF_PROTOCOL PROTOCOL_TCP) PROTOCOL_TCP then
    exists host port dongle inverter,
      user_input !! CONF_HOST = Some host /\
      user_input !! CONF_PORT = Some port /\
      user_input !! CONF_DONGLE_SERIAL = Some dongle /\
      user_input !! CONF_INVERTER_SERIAL = Some inverter /\
      validate_serial dongle = Ok (py_str dongle) /\
      validate_serial inverter = Ok (py_str inverter) /\
      get_inverter_model_from_device_tcp E host port dongle inverter w =
        (w1, Ok (Some model))
  else
    exists serial_port baudrate parity stopbits bytesize slave_id,
      user_input !! CONF_SERIAL_PORT = Some serial_port /\
      user_input !! CONF_BAUDRATE = Some baudrate /\
      user_input !! CONF_PARITY = Some parity /\
      user_input !! CONF_STOPBITS = Some stopbits /\
      user_input !! CONF_BYTESIZE = Some bytesize /\
      user_input !! CONF_SLAVE_ID = Some slave_id /\
      get_inverter_model_from_device_rtu E serial_port baudrate parity stopbits
        bytesize slave_id w = (w1, Ok (Some model)).

(** An ASCII character. *)
Definition is_ascii (c : N) : Prop := (c < 128)%N.

(** ** Concrete scenarios *)

(** An inverter that answers the probe with the model code of an
    [SNA] unit; [drain] and [holding] are the outcomes of [writer.drain()]
    and of [client.read_holding_registers(...)]. *)
Definition inverter_world (drain : result unit) (holding : result modbus_pdu)
    : environment := {|
  int_of_str := fun _ => None;
  prepare_packet_for_read := fun dongle inverter _ _ _ =>
    if Nat.eqb (length dongle) 10 && Nat.eqb (length inverter) 10
    then Ok (dongle ++ inverter) else Raise ValueError;
  LxpResponse := fun _ =>
    Ok {| packet_error := false; parsed_values_dictionary := {[ 7%Z := 1%Z; 8%Z := 2%Z ]} |};
  decode_model_from_registers := fun _ => Ok (Some (code_points "SNA"));
  open_connection := fun _ _ => Ok tt;
  writer_write := fun _ => Ok tt;
  writer_drain := drain;
  reader_read := fun _ => Ok [x01];
  writer_close := Ok tt;
  writer_wait_closed := Ok tt;
  import_pymodbus := Ok tt;
  ModbusSerialClient := fun _ _ _ _ _ _ => Ok tt;
  client_connect := Ok true;
  read_holding_registers := fun _ _ _ => holding;
  client_close := Ok tt;
  comports := Ok [];
  async_reload := Ok tt
|}.

Definition answering_inverter : environment :=
  inverter_world (Ok tt) (Ok {| isError := false; registers := [1; 2]%Z |}).

Definition drain_fails : environment :=
  inverter_world (Raise OSError) (Ok {| isError := false; registers := [1; 2]%Z |}).

Definition holding_read_fails : environment :=
  inverter_world (Ok tt) (Raise OSError).

Definition tcp_submission (dongle inverter : string) : dict :=
  <[CONF_HOST := Str "10.0.0.5"]>
  (<[CONF_PORT := PyInt 8000]>
  (<[CONF_DONGLE_SERIAL := Str dongle]>
  (<[CONF_INVERTER_SERIAL := Str inverter]>
  (<[CONF_POLL_INTERVAL := PyInt 60]>
  (<[CONF_ENTITY_PREFIX := Str EmptyString]>
  (<[CONF_RATED_POWER := PyInt 5000]>
  (<[CONF_READ_ONLY := PyBool false]>
  (<[CONF_REGISTER_BLOCK_SIZE := PyInt 125]>
  (<[CONF_CONNECTION_RETRIES := PyInt 3]>
  (<[CONF_ENABLE_DEVICE_GROUPING := PyBool true]> ∅)))))))))).

Definition rtu_submission (slave_id : Z) : dict :=
  <[CONF_SERIAL_PORT := Str "/dev/ttyUSB0"]>
  (<[CONF_BAUDRATE := PyInt 19200]>
  (<[CONF_PARITY := Str "N"]>
  (<[CONF_STOPBITS := PyInt 1]>
  (<[CONF_BYTESIZE := PyInt 8]>
  (<[CONF_SLAVE_ID := PyInt slave_id]>
  (<[CONF_POLL_INTERVAL := PyInt 60]>
  (<[CONF_ENTITY_PREFIX := Str EmptyString]>
  (<[CONF_RATED_POWER := PyInt 5000]>
  (<[CONF_READ_ONLY := PyBool false]>
  (<[CONF_REGISTER_BLOCK_SIZE := PyInt 125]>
  (<[CONF_CONNECTION_RETRIES := PyInt 3]>
  (<[CONF_ENABLE_DEVICE_GROUPING := PyBool true]> ∅)))))))))))).

Definition fresh_world : world := World [] (ConfigEntry ∅ ∅).

(** A TCP entry as the setup flow stored it. *)
Definition stored_tcp_entry : config_entry :=
  ConfigEntry
    (<["model" := Str "SNA"]>
       (<[CONF_PROTOCOL := PROTOCOL_TCP]> (tcp_submission "BA12345678" "CD12345678")))
    ∅.

(** * Properties *)

(** ** Python values and voluptuous *)

Lemma pystr_eqb_eq (s t : pystr) : pystr_eqb s t = true <-> s = t.
Proof. unfold pystr_eqb. apply bool_decide_eq_true. Qed.

Example str_of_int : py_str (PyInt 1234567890) = code_points "1234567890".
Proof. reflexivity. Qed.

Example str_of_negative_int : py_str (PyInt (-12)) = code_points "-12".
Proof. reflexivity. Qed.

Example str_of_zero : py_str (PyInt 0) = code_points "0".
Proof. reflexivity. Qed.

Example format_010d_one : format_010d (PyInt 1) = Ok (code_points "0000000001").
Proof. reflexivity. Qed.

Example format_010d_True : format_010d (PyBool true) = Ok (code_points "0000000001").
Proof. reflexivity. Qed.

Example format_010d_negative : format_010d (PyInt (-5)) = Ok (code_points "-000000005").
Proof. reflexivity. Qed.

Example format_010d_wide :
  format_010d (PyInt 12345678901) = Ok (code_points "12345678901").
Proof. reflexivity. Qed.

Example encode_e_acute : py_encode (PyStr [233%N]) = Ok [xc3; xa9].
Proof. reflexivity. Qed.

Example encode_surrogate : py_encode (PyStr [0xD800%N]) = Raise UnicodeEncodeError.
Proof. reflexivity. Qed.

Example registers_dict_two (a b : Z) :
  registers_dict [a; b] = <[7%Z := a]> (<[8%Z := b]> ∅).
Proof. reflexivity. Qed.

Lemma accepts_int_range (lo hi : Z) (value : pyval) :
  accepts (vol_All [vol_int; vol_Range lo hi]) value = true <->
  exists z, int_value value = Some z /\ (lo <= z <= hi)%Z.
Proof.
  destruct value as [| [|] | z | s]; simpl;
    rewrite ?andb_true_r, ?andb_true_iff, ?Z.leb_le;
    split; try (intros [z' [Hz Hr]]; inversion Hz; subst; lia);
    try discriminate; try (intros [? _]; discriminate); eauto.
Qed.

Lemma accepts_In_ints (zs : list Z) (value : pyval) :
  accepts (vol_In (map PyInt zs)) value = true <->
  exists z, int_value value = Some z /\ In z zs.
Proof.
  simpl. rewrite existsb_exists. split.
  - intros [x [Hin Heq]]. apply in_map_iff in Hin as [z [<- Hz]].
    destruct value as [| [|] | z' | s]; cbn [py_eq int_value] in Heq;
      try discriminate; apply Z.eqb_eq in Heq; subst; eauto.
  - intros [z [Hv Hz]]. exists (PyInt z). split; [apply in_map; exact Hz |].
    destruct value as [| [|] | z' | s]; cbn [int_value] in Hv; inversion Hv; subst;
      cbn [py_eq int_value]; apply Z.eqb_refl.
Qed.

Lemma accepts_In_strs (ss : list pystr) (value : pyval) :
  accepts (vol_In (map PyStr ss)) value = true <->
  exists s, value = PyStr s /\ In s ss.
Proof.
  simpl. rewrite existsb_exists. split.
  - intros [x [Hin Heq]]. apply in_map_iff in Hin as [s [<- Hs]].
    destruct value as [| [|] | z' | s']; cbn [py_eq int_value] in Heq;
      try discriminate.
    apply pystr_eqb_eq in Heq. subst. eauto.
  - intros [s [-> Hs]]. exists (PyStr s). split; [apply in_map; exact Hs |].
    cbn [py_eq]. apply pystr_eqb_eq. reflexivity.
Qed.

(** ** validate_serial *)

Lemma validate_serial_Ok (value : pyval) (s : pystr) :
  validate_serial value = Ok s <-> s = py_str value /\ length (py_str value) = 10%nat.
Proof.
  unfold validate_serial.
  destruct (Nat.eqb (length (py_str value)) 10) eqn:Hlen; simpl.
  - apply Nat.eqb_eq in Hlen. split; [intros [= <-] | intros [-> _]]; auto.
  - apply Nat.eqb_neq in Hlen. split; [discriminate | intros [_ H]; contradiction].
Qed.

Lemma validate_serial_Raise (value : pyval) :
  length (py_str value) <> 10%nat ->
  validate_serial value = Raise (Invalid "Serial number must be exactly 10 characters.").
Proof.
  intros Hlen. unfold validate_serial.
  apply Nat.eqb_neq in Hlen. rewrite Hlen. reflexivity.
Qed.

Lemma utf8_length (c : N) (b : bytes) :
  utf8 c = Some b -> (1 <= length b)%nat /\ (length b = 1%nat <-> (c < 128)%N).
Proof.
  unfold utf8. repeat case_match; intros [= <-]; simpl;
    repeat match goal with
    | H : (_ <? _)%N = true |- _ => apply N.ltb_lt in H
    | H : (_ <? _)%N = false |- _ => apply N.ltb_ge in H
    end; split; try lia; split; intros; lia.
Qed.

Lemma encode_utf8_length (s : pystr) (b : bytes) :
  encode_utf8 s = Some b ->
  (length s <= length b)%nat /\
  (length b = length s -> Forall (fun c => (c < 128)%N) s).
Proof.
  revert b. induction s as [| c s IH]; intros b; simpl.
  - intros [= <-]. split; [lia | constructor].
  - destruct (utf8 c) as [bc |] eqn:Hc; [| discriminate].
    destruct (encode_utf8 s) as [bs |] eqn:Hs; [| discriminate].
    intros [= <-]. destruct (utf8_length _ _ Hc) as [Hge Hone].
    destruct (IH bs eq_refl) as [Hle Hall].
    rewrite length_app. simpl. split; [lia |].
    intros Heq. constructor; [apply Hone; lia | apply Hall; lia].
Qed.

(** C10: [validate_serial] renders its argument with [str()] and
    compares the number of characters of the rendering with 10.  Every
    value whose rendering has exactly 10 characters is accepted and returned
    as that string, every other value is refused; the 10-digit integer
    1234567890 is accepted as the string of its digits; and a string of ten
    two-byte characters, whose encoding is 20 bytes long, is accepted: it is
    characters that are counted, not encoded bytes. *)
Theorem validate_serial_counts_characters :
  (forall value : pyval,
     length (py_str value) = 10%nat -> validate_serial value = Ok (py_str value)) /\
  (forall value : pyval,
     length (py_str value) <> 10%nat -> exists msg, validate_serial value = Raise (Invalid msg)) /\
  validate_serial (PyInt 1234567890) = Ok (code_points "1234567890") /\
  (exists (s : pystr) (b : bytes),
     py_encode (PyStr s) = Ok b /\ length s = 10%nat /\ length b = 20%nat /\
     validate_serial (PyStr s) = Ok s).
Proof.
  split; [| split; [| split]].
  - intros value Hlen. apply validate_serial_Ok. auto.
  - intros value Hlen. eexists. apply validate_serial_Raise. exact Hlen.
  - reflexivity.
  - exists (repeat 233%N 10). eexists. repeat split.
Qed.

(** ** validate_connection_retries *)

(** C7: when [int(value)] is [n], [validate_connection_retries] returns
    [n] if [n] lies in 1..10 and raises [vol.Invalid] if [n] is less than 1
    or greater than 10. *)
Theorem validate_connection_retries_range
    (int_of_str : pystr -> option Z) (value : pyval) (n : Z) :
  py_int int_of_str value = Ok n ->
  ((1 <= n <= 10)%Z -> validate_connection_retries int_of_str value = Ok n) /\
  ((n < 1 \/ n > 10)%Z ->
   validate_connection_retries int_of_str value =
   Raise (Invalid "Connection retry attempts must be between 1 and 10.")).
Proof.
  intros Hint. unfold validate_connection_retries. rewrite Hint. simpl.
  split; intros Hn.
  - replace (n <? 1)%Z with false by (symmetry; apply Z.ltb_ge; lia).
    replace (n >? 10)%Z with false by (symmetry; rewrite Z.gtb_ltb; apply Z.ltb_ge; lia).
    reflexivity.
  - destruct Hn as [Hn | Hn].
    + replace (n <? 1)%Z with true by (symmetry; apply Z.ltb_lt; lia). reflexivity.
    + replace (n >? 10)%Z with true by (symmetry; rewrite Z.gtb_ltb; apply Z.ltb_lt; lia).
      rewrite orb_true_r. reflexivity.
Qed.

Lemma validate_connection_retries_range_witness :
  py_int (fun _ => None) (PyInt 3) = Ok 3%Z /\
  validate_connection_retries (fun _ => None) (PyInt 3) = Ok 3%Z /\
  py_int (fun _ => None) (PyBool false) = Ok 0%Z /\
  validate_connection_retries (fun _ => None) (PyBool false) =
  Raise (Invalid "Connection retry attempts must be between 1 and 10.").
Proof.
  split; [reflexivity |]. split.
  - apply (validate_connection_retries_range (fun _ => None) (PyInt 3) 3);
      [reflexivity | lia].
  - split; [reflexivity |].
    apply (validate_connection_retries_range (fun _ => None) (PyBool false) 0);
      [reflexivity | lia].
Defined.

(** ** The schemas *)

(** C8: the TCP schema accepts as poll interval exactly the integers
    from 2 to 600, the RTU schema exactly the integers from 1 to 600.  (An
    integer is an instance of [int]; Python's [True] is the integer 1.) *)
Theorem poll_interval_bounds (serial_ports : list pystr) (value : pyval) :
  (field_accepts tcp_data_schema CONF_POLL_INTERVAL value = true <->
   exists z, int_value value = Some z /\ (2 <= z <= 600)%Z) /\
  (field_accepts (rtu_data_schema serial_ports) CONF_POLL_INTERVAL value = true <->
   exists z, int_value value = Some z /\ (1 <= z <= 600)%Z).
Proof.
  split.
  - change (field_accepts tcp_data_schema CONF_POLL_INTERVAL value)
      with (accepts (vol_All [vol_int; vol_Range 2 600]) value).
    apply accepts_int_range.
  - change (field_accepts (rtu_data_schema serial_ports) CONF_POLL_INTERVAL value)
      with (accepts (vol_All [vol_int; vol_Range 1 600]) value).
    apply accepts_int_range.
Qed.

Lemma accepts_parity (value : pyval) :
  accepts (vol_In PARITY_OPTIONS) value = true <->
  value = Str "N" \/ value = Str "E" \/ value = Str "O".
Proof.
  change PARITY_OPTIONS with (map PyStr [code_points "N"; code_points "E"; code_points "O"]).
  rewrite accepts_In_strs. split.
  - intros [s [-> Hs]]. simpl in Hs.
    destruct Hs as [<- | [<- | [<- | []]]]; auto.
  - intros [-> | [-> | ->]]; eexists; (split; [reflexivity |]); simpl; auto.
Qed.

(** C9: the defaults and the allowed values of the configuration.
    Port: default 8000.  Baud rate: default 19200, one of 9600, 19200,
    38400, 57600, 115200.  Parity: default N, one of N, E, O.  Stop bits:
    default 1, one of 1, 2.  Byte size: default 8, one of 7, 8.  Slave id:
    default 1, from 1 to 247.  Register block size: default 125, one of
    125, 40.  Connection retries: default 3.  Rated power: from 1000 to
    100000. *)
Theorem configuration_defaults_and_ranges (serial_ports : list pystr) (value : pyval) :
  field_default tcp_data_schema CONF_PORT = Some (PyInt 8000) /\
  (field_default (rtu_data_schema serial_ports) CONF_BAUDRATE = Some (PyInt 19200) /\
   (field_accepts (rtu_data_schema serial_ports) CONF_BAUDRATE value = true <->
    exists z, int_value value = Some z /\ In z [9600; 19200; 38400; 57600; 115200]%Z)) /\
  (field_default (rtu_data_schema serial_ports) CONF_PARITY = Some (Str "N") /\
   (field_accepts (rtu_data_schema serial_ports) CONF_PARITY value = true <->
    value = Str "N" \/ value = Str "E" \/ value = Str "O")) /\
  (field_default (rtu_data_schema serial_ports) CONF_STOPBITS = Some (PyInt 1) /\
   (field_accepts (rtu_data_schema serial_ports) CONF_STOPBITS value = true <->
    exists z, int_value value = Some z /\ In z [1; 2]%Z)) /\
  (field_default (rtu_data_schema serial_ports) CONF_BYTESIZE = Some (PyInt 8) /\
   (field_accepts (rtu_data_schema serial_ports) CONF_BYTESIZE value = true <->
    exists z, int_value value = Some z /\ In z [7; 8]%Z)) /\
  (field_default (rtu_data_schema serial_ports) CONF_SLAVE_ID = Some (PyInt 1) /\
   (field_accepts (rtu_data_schema serial_ports) CONF_SLAVE_ID value = true <->
    exists z, int_value value = Some z /\ (1 <= z <= 247)%Z)) /\
  (field_default tcp_data_schema CONF_REGISTER_BLOCK_SIZE = Some (PyInt 125) /\
   field_default (rtu_data_schema serial_ports) CONF_REGISTER_BLOCK_SIZE = Some (PyInt 125) /\
   (field_accepts tcp_data_schema CONF_REGISTER_BLOCK_SIZE value = true <->
    exists z, int_value value = Some z /\ In z [125; 40]%Z) /\
   (field_accepts (rtu_data_schema serial_ports) CONF_REGISTER_BLOCK_SIZE value = true <->
    exists z, int_value value = Some z /\ In z [125; 40]%Z)) /\
  (field_default tcp_data_schema CONF_CONNECTION_RETRIES = Some (PyInt 3) /\
   field_default (rtu_data_schema serial_ports) CONF_CONNECTION_RETRIES = Some (PyInt 3)) /\
  ((field_accepts tcp_data_schema CONF_RATED_POWER value = true <->
    exists z, int_value value = Some z /\ (1000 <= z <= 100000)%Z) /\
   (field_accepts (rtu_data_schema serial_ports) CONF_RATED_POWER value = true <->
    exists z, int_value value = Some z /\ (1000 <= z <= 100000)%Z)).
Proof.
  repeat match goal with |- _ /\ _ => split end; try reflexivity.
  - apply (accepts_In_ints [9600; 19200; 38400; 57600; 115200]%Z).
  - apply accepts_parity.
  - apply (accepts_In_ints [1; 2]%Z).
  - apply (accepts_In_ints [7; 8]%Z).
  - apply (accepts_int_range 1 247).
  - apply (accepts_In_ints [125; 40]%Z).
  - apply (accepts_In_ints [125; 40]%Z).
  - apply (accepts_int_range 1000 100000).
  - apply (accepts_int_range 1000 100000).
Qed.

(** ** Running a coroutine *)

Ltac io_unfold :=
  unfold try_except, try_except2, call, emit, lift, bind, ret, in_world,
    set_error, get_errors, get_entry, async_update_entry, run_step in *.

(** Case analysis on the innermost call whose outcome decides the run. *)
Ltac destruct_innermost :=
  match goal with
  | |- context [match ?x with _ => _ end] =>
      lazymatch x with
      | context [match _ with _ => _ end] => fail
      | _ => destruct x eqn:?
      end
  end.

Ltac destruct_innermost_in H :=
  match type of H with
  | context [match ?x with _ => _ end] =>
      lazymatch x with
      | context [match _ with _ => _ end] => fail
      | _ => destruct x eqn:?
      end
  end.

Ltac run_probe := io_unfold; cbn; repeat (destruct_innermost; cbn).

(** Membership in an explicit list of events. *)
Ltac in_events :=
  simpl; intros;
  repeat match goal with
  | H : _ \/ _ |- _ => destruct H
  | H : False |- _ => destruct H
  | H : @eq event _ _ |- _ => first [discriminate H | injection H as ?; subst]
  | H : Ok _ = Ok _ |- _ => injection H as ?; subst
  | H : Ok _ = Raise _ |- _ => discriminate H
  | H : Raise _ = Ok _ |- _ => discriminate H
  | H : tt = tt |- _ => clear H
  | u : unit |- _ => destruct u
  end.

Lemma try_except_Exception_total {S A : Type} (body : io S A) (v : A) (s : S) :
  exists s' a, try_except body is_Exception (ret v) s = (s', Ok a).
Proof.
  unfold try_except, ret. destruct (body s) as [s' [a | e]]; simpl; eauto.
Qed.

(** ** The model probes *)

(** The calls of the TCP probe: it always starts with [open_connection];
    what it writes is the read request for (7, 2, 3); and it closes the
    writer exactly when the read returned. *)
Lemma tcp_probe_trace (E : environment) (host port dongle inverter : pyval) (w : world) :
  exists evs,
    (get_inverter_model_from_device_tcp E host port dongle inverter w).1 =
      World (log w ++ EvOpenConnection host port :: evs) (entry w) /\
    (forall req, In (EvWrite req) evs ->
       exists d i, py_encode dongle = Ok d /\ py_encode inverter = Ok i /\
                   prepare_packet_for_read E d i 7 2 3 = Ok req) /\
    (forall d i req,
       open_connection E host port = Ok tt ->
       py_encode dongle = Ok d -> py_encode inverter = Ok i ->
       prepare_packet_for_read E d i 7 2 3 = Ok req ->
       In (EvWrite req) evs) /\
    (In EvWriterClose evs <-> exists buf, In (EvRead 512) evs /\ reader_read E 512 = Ok buf).
Proof.
  unfold get_inverter_model_from_device_tcp. run_probe;
    rewrite <- ?app_assoc; simpl; eexists; (split; [reflexivity |]);
    (split; [| split; [| split]]); in_events; eauto 10; try congruence.
  all: try (eexists; split; [| eassumption]; tauto).
  all: try (destruct H as [? [? ?]]; in_events; congruence).
  all: left; congruence.
Qed.

Lemma rtu_probe_trace (E : environment)
    (serial_port baudrate parity stopbits bytesize slave_id : pyval) (w : world) :
  exists evs,
    (get_inverter_model_from_device_rtu E serial_port baudrate parity stopbits
       bytesize slave_id w).1 =
      World (log w ++ EvImportPymodbus :: evs) (entry w) /\
    (forall address count slave,
       In (EvReadHoldingRegisters address count slave) evs ->
       address = 7%Z /\ count = 2%Z /\ slave = slave_id) /\
    (import_pymodbus E = Ok tt ->
     ModbusSerialClient E serial_port baudrate parity stopbits bytesize 3 = Ok tt ->
     client_connect E = Ok true ->
     In (EvReadHoldingRegisters 7 2 slave_id) evs) /\
    (In EvClientClose evs <->
     exists pdu, In (EvReadHoldingRegisters 7 2 slave_id) evs /\
                 read_holding_registers E 7 2 slave_id = Ok pdu).
Proof.
  unfold get_inverter_model_from_device_rtu. run_probe;
    rewrite <- ?app_assoc; simpl; eexists; (split; [reflexivity |]);
    (split; [| split; [| split]]); in_events; eauto 10; try congruence.
  all: try (eexists; split; [| eassumption]; tauto).
  all: try (destruct H as [? [? ?]]; in_events; congruence).
  all: simpl in *; congruence.
Qed.

Lemma tcp_probe_result (E : environment) (host port dongle inverter : pyval) (w : world) :
  (reader_read E 512 = Ok [] ->
   (get_inverter_model_from_device_tcp E host port dongle inverter w).2 = Ok None) /\
  (forall buf response,
     reader_read E 512 = Ok buf -> LxpResponse E buf = Ok response ->
     packet_error response = true ->
     (get_inverter_model_from_device_tcp E host port dongle inverter w).2 = Ok None) /\
  (forall model,
     (get_inverter_model_from_device_tcp E host port dongle inverter w).2 = Ok (Some model) ->
     exists buf response,
       reader_read E 512 = Ok buf /\ LxpResponse E buf = Ok response /\
       decode_model_from_registers E (parsed_values_dictionary response) = Ok (Some model)) /\
  (forall buf response,
     reader_read E 512 = Ok buf -> LxpResponse E buf = Ok response ->
     decode_model_from_registers E (parsed_values_dictionary response) = Ok None \/
     (exists e, decode_model_from_registers E (parsed_values_dictionary response) = Raise e) ->
     (get_inverter_model_from_device_tcp E host port dongle inverter w).2 = Ok None).
Proof.
  unfold get_inverter_model_from_device_tcp.
  repeat split; intros; revert H; run_probe; intros;
    try reflexivity; try discriminate; simplify_eq/=; eauto;
    try congruence.
  all: match goal with H : _ \/ _ |- _ => destruct H as [? | [? ?]] end; congruence.
Qed.

Lemma rtu_probe_result (E : environment)
    (serial_port baudrate parity stopbits bytesize slave_id : pyval) (w : world) :
  (forall model,
     (get_inverter_model_from_device_rtu E serial_port baudrate parity stopbits
        bytesize slave_id w).2 = Ok (Some model) ->
     exists pdu,
       read_holding_registers E 7 2 slave_id = Ok pdu /\ isError pdu = false /\
       decode_model_from_registers E (registers_dict (registers pdu)) = Ok (Some model)) /\
  (forall pdu,
     read_holding_registers E 7 2 slave_id = Ok pdu ->
     decode_model_from_registers E (registers_dict (registers pdu)) = Ok None \/
     (exists e, decode_model_from_registers E (registers_dict (registers pdu)) = Raise e) ->
     (get_inverter_model_from_device_rtu E serial_port baudrate parity stopbits
        bytesize slave_id w).2 = Ok None).
Proof.
  unfold get_inverter_model_from_device_rtu.
  repeat split; intros; revert H; run_probe; intros;
    try reflexivity; try discriminate; simplify_eq/=; eauto;
    try congruence.
  all: match goal with H : _ \/ _ |- _ => destruct H as [? | [? ?]] end; congruence.
Qed.

(** The dictionary the RTU probe hands to the decoder maps register
    [7 + i] to the [i]-th register read. *)
Lemma registers_dict_from (k : Z) (regs : list Z) (i : nat) :
  (list_to_map (imap (fun j r => ((k + Z.of_nat j)%Z, r)) regs) : gmap Z Z)
    !! (k + Z.of_nat i)%Z = regs !! i.
Proof.
  revert k i. induction regs as [| r regs IH]; intros k i; [reflexivity |].
  rewrite imap_cons. cbn [list_to_map foldr uncurry].
  destruct i as [| i].
  - rewrite Z.add_0_r. simpl. apply lookup_insert_eq.
  - rewrite lookup_insert_ne by (cbn [fst]; lia).
    rewrite (imap_ext _ (fun j r => ((k + 1 + Z.of_nat j)%Z, r)))
      by (intros; simpl; f_equal; lia).
    replace (k + Z.of_nat (S i))%Z with (k + 1 + Z.of_nat i)%Z by lia.
    apply IH.
Qed.

Lemma registers_dict_lookup (regs : list Z) (i : nat) :
  registers_dict regs !! (7 + Z.of_nat i)%Z = regs !! i.
Proof. apply registers_dict_from. Qed.

(** C2: whatever the connection does, each probe returns a model or
    [None] and raises nothing; an empty TCP read gives [None], and so does
    a response whose [packet_error] flag is set. *)
Theorem probes_return_model_or_None (E : environment)
    (host port dongle_serial inverter_serial : pyval)
    (serial_port baudrate parity stopbits bytesize slave_id : pyval) (w : world) :
  (exists w' (model : option pystr),
     get_inverter_model_from_device_tcp E host port dongle_serial inverter_serial w =
     (w', Ok model)) /\
  (exists w' (model : option pystr),
     get_inverter_model_from_device_rtu E serial_port baudrate parity stopbits
       bytesize slave_id w = (w', Ok model)) /\
  (reader_read E 512 = Ok [] ->
   (get_inverter_model_from_device_tcp E host port dongle_serial inverter_serial w).2 =
   Ok None) /\
  (forall buf response,
     reader_read E 512 = Ok buf -> LxpResponse E buf = Ok response ->
     packet_error response = true ->
     (get_inverter_model_from_device_tcp E host port dongle_serial inverter_serial w).2 =
     Ok None).
Proof.
  split; [apply try_except_Exception_total |].
  split; [apply try_except_Exception_total |].
  destruct (tcp_probe_result E host port dongle_serial inverter_serial w)
    as [Hempty [Herror _]].
  split; assumption.
Qed.

(** C3, on the code: when [writer.drain()] raises after the connection was
    opened, the TCP probe returns [None] and [writer.close()] was never
    called; when [client.read_holding_registers] raises after
    [client.connect()] succeeded, the RTU probe returns [None] and
    [client.close()] was never called. *)
Theorem probe_skips_close_when_exchange_raises :
  (open_connection drain_fails (Str "10.0.0.5") (PyInt 8000) = Ok tt /\
   exists req,
     get_inverter_model_from_device_tcp drain_fails (Str "10.0.0.5") (PyInt 8000)
       (Str "BA12345678") (Str "CD12345678") fresh_world =
     (World [EvOpenConnection (Str "10.0.0.5") (PyInt 8000); EvWrite req; EvDrain]
            (entry fresh_world), Ok None)) /\
  (client_connect holding_read_fails = Ok true /\
   get_inverter_model_from_device_rtu holding_read_fails (Str "/dev/ttyUSB0")
     (PyInt 19200) (Str "N") (PyInt 1) (PyInt 8) (PyInt 1) fresh_world =
   (World [EvImportPymodbus;
           EvModbusSerialClient (Str "/dev/ttyUSB0") (PyInt 19200) (Str "N")
             (PyInt 1) (PyInt 8) 3;
           EvConnect; EvReadHoldingRegisters 7 2 (PyInt 1)]
          (entry fresh_world), Ok None)).
Proof.
  split; (split; [reflexivity |]).
  - eexists. vm_compute. reflexivity.
  - vm_compute. reflexivity.
Qed.

(** The exchange of the TCP probe on the wire: what it writes is the read
    request for (7, 2, 3); once the request is written and drained it
    reads the response, at most 512 bytes of it, and reads nothing else. *)
Lemma tcp_probe_exchange (E : environment) (host port dongle inverter : pyval) (w : world) :
  exists evs,
    (get_inverter_model_from_device_tcp E host port dongle inverter w).1 =
      World (log w ++ EvOpenConnection host port :: evs) (entry w) /\
    (forall req, In (EvWrite req) evs ->
       exists d i, py_encode dongle = Ok d /\ py_encode inverter = Ok i /\
                   prepare_packet_for_read E d i 7 2 3 = Ok req) /\
    (forall d i req,
       open_connection E host port = Ok tt ->
       py_encode dongle = Ok d -> py_encode inverter = Ok i ->
       prepare_packet_for_read E d i 7 2 3 = Ok req ->
       In (EvWrite req) evs) /\
    (forall n, In (EvRead n) evs -> n = 512%Z) /\
    (forall d i req,
       open_connection E host port = Ok tt ->
       py_encode dongle = Ok d -> py_encode inverter = Ok i ->
       prepare_packet_for_read E d i 7 2 3 = Ok req ->
       writer_write E req = Ok tt -> writer_drain E = Ok tt ->
       In (EvRead 512) evs).
Proof.
  unfold get_inverter_model_from_device_tcp. run_probe;
    rewrite <- ?app_assoc; simpl; eexists; (split; [reflexivity |]);
    (split; [| split; [| split]]); in_events; eauto 10; try congruence.
  all: try (left; congruence).
  all: try tauto.
Qed.

(** When the TCP probe returns a model: every call of the exchange
    returned, the response read is not empty and parses without
    [packet_error], and the model is the decoder's result on the parsed
    register map. *)
Lemma tcp_probe_Some_iff (E : environment) (host port dongle inverter : pyval) (w : world)
    (model : pystr) :
  (get_inverter_model_from_device_tcp E host port dongle inverter w).2 = Ok (Some model) <->
  open_connection E host port = Ok tt /\
  exists d i req buf response,
    py_encode dongle = Ok d /\ py_encode inverter = Ok i /\
    prepare_packet_for_read E d i 7 2 3 = Ok req /\
    writer_write E req = Ok tt /\ writer_drain E = Ok tt /\
    reader_read E 512 = Ok buf /\
    writer_close E = Ok tt /\ writer_wait_closed E = Ok tt /\
    buf <> [] /\ LxpResponse E buf = Ok response /\ packet_error response = false /\
    decode_model_from_registers E (parsed_values_dictionary response) = Ok (Some model).
Proof.
  unfold get_inverter_model_from_device_tcp. split.
  - intros H. revert H. run_probe; intros H; try discriminate H.
    repeat match goal with u : unit |- _ => destruct u end.
    injection H as ->. split; [reflexivity |].
    do 5 eexists. repeat split; try eassumption.
    intros ->. discriminate.
  - intros [Ho (d & i & req & buf & response & Hd & Hi & Hp & Hw & Hdr & Hr & Hc & Hwc &
                Hne & Hresp & Herr & Hdec)].
    io_unfold. cbn. rewrite Ho. cbn. rewrite Hd. cbn. rewrite Hi. cbn. rewrite Hp. cbn.
    rewrite Hw. cbn. rewrite Hdr. cbn. rewrite Hr. cbn. rewrite Hc. cbn. rewrite Hwc. cbn.
    destruct buf; [contradiction |]. cbn. rewrite Hresp. cbn. rewrite Herr. cbn.
    rewrite Hdec. reflexivity.
Qed.

(** When the RTU probe returns a model: the client connected, the read of
    (7, 2) returned a response that is no error, the client was closed, and
    the model is the decoder's result on the registers read. *)
Lemma rtu_probe_Some_iff (E : environment)
    (serial_port baudrate parity stopbits bytesize slave_id : pyval) (w : world)
    (model : pystr) :
  (get_inverter_model_from_device_rtu E serial_port baudrate parity stopbits
     bytesize slave_id w).2 = Ok (Some model) <->
  import_pymodbus E = Ok tt /\
  ModbusSerialClient E serial_port baudrate parity stopbits bytesize 3 = Ok tt /\
  client_connect E = Ok true /\
  exists pdu,
    read_holding_registers E 7 2 slave_id = Ok pdu /\
    client_close E = Ok tt /\
    isError pdu = false /\
    decode_model_from_registers E (registers_dict (registers pdu)) = Ok (Some model).
Proof.
  unfold get_inverter_model_from_device_rtu. split.
  - intros H. revert H. run_probe; intros H; try discriminate H.
    repeat match goal with u : unit |- _ => destruct u end.
    repeat match goal with
    | Hb : negb ?b = _ |- _ => is_var b; destruct b; try discriminate Hb; clear Hb
    end.
    injection H as ->. repeat split. eexists. repeat split; eassumption.
  - intros (Hi & Hc & Hconn & pdu & Hr & Hcl & Herr & Hdec).
    io_unfold. cbn. rewrite Hi. cbn. rewrite Hc. cbn. rewrite Hconn. cbn.
    rewrite Hr. cbn. rewrite Hcl. cbn. rewrite Herr. cbn. rewrite Hdec. reflexivity.
Qed.

(** C6: the TCP probe writes no request but the one built for start
    register 7, count 2, function code 3, and writes it once the connection
    is open; once that request is written and drained it reads the
    response, with [read(512)] and no other read.  The RTU probe reads
    holding registers with address 7 and count 2 only, and does so once the
    client is connected.  Each probe returns a model exactly when the whole
    exchange returns, the response is usable (not empty and without
    [packet_error] for TCP, not [isError] for RTU) and the decoder finds
    that model in the register map that came back (for RTU the map that
    sends [7 + i] to the [i]-th register read); so a model the probe returns
    is what the decoder made of that map, and when the decoder finds no
    model, or raises, the probe returns [None]. *)
Theorem probe_reads_registers_7_and_8 (E : environment)
    (host port dongle_serial inverter_serial : pyval)
    (serial_port baudrate parity stopbits bytesize slave_id : pyval) (w : world) :
  (exists evs,
     log (get_inverter_model_from_device_tcp E host port dongle_serial inverter_serial w).1
       = log w ++ evs /\
     (forall req, In (EvWrite req) evs ->
        exists d i, py_encode dongle_serial = Ok d /\ py_encode inverter_serial = Ok i /\
                    prepare_packet_for_read E d i 7 2 3 = Ok req) /\
     (forall d i req,
        open_connection E host port = Ok tt ->
        py_encode dongle_serial = Ok d -> py_encode inverter_serial = Ok i ->
        prepare_packet_for_read E d i 7 2 3 = Ok req ->
        In (EvWrite req) evs) /\
     (forall n, In (EvRead n) evs -> n = 512%Z) /\
     (forall d i req,
        open_connection E host port = Ok tt ->
        py_encode dongle_serial = Ok d -> py_encode inverter_serial = Ok i ->
        prepare_packet_for_read E d i 7 2 3 = Ok req ->
        writer_write E req = Ok tt -> writer_drain E = Ok tt ->
        In (EvRead 512) evs)) /\
  (forall model,
     (get_inverter_model_from_device_tcp E host port dongle_serial inverter_serial w).2 =
       Ok (Some model) <->
     open_connection E host port = Ok tt /\
     exists d i req buf response,
       py_encode dongle_serial = Ok d /\ py_encode inverter_serial = Ok i /\
       prepare_packet_for_read E d i 7 2 3 = Ok req /\
       writer_write E req = Ok tt /\ writer_drain E = Ok tt /\
       reader_read E 512 = Ok buf /\
       writer_close E = Ok tt /\ writer_wait_closed E = Ok tt /\
       buf <> [] /\ LxpResponse E buf = Ok response /\ packet_error response = false /\
       decode_model_from_registers E (parsed_values_dictionary response) = Ok (Some model)) /\
  (forall model,
     (get_inverter_model_from_device_tcp E host port dongle_serial inverter_serial w).2 =
       Ok (Some model) ->
     exists buf response,
       reader_read E 512 = Ok buf /\ LxpResponse E buf = Ok response /\
       decode_model_from_registers E (parsed_values_dictionary response) = Ok (Some model)) /\
  (forall buf response,
     reader_read E 512 = Ok buf -> LxpResponse E buf = Ok response ->
     decode_model_from_registers E (parsed_values_dictionary response) = Ok None \/
     (exists e, decode_model_from_registers E (parsed_values_dictionary response) = Raise e) ->
     (get_inverter_model_from_device_tcp E host port dongle_serial inverter_serial w).2 =
       Ok None) /\
  (exists evs,
     log (get_inverter_model_from_device_rtu E serial_port baudrate parity stopbits
            bytesize slave_id w).1 = log w ++ evs /\
     (forall address count slave,
        In (EvReadHoldingRegisters address count slave) evs ->
        address = 7%Z /\ count = 2%Z /\ slave = slave_id) /\
     (import_pymodbus E = Ok tt ->
      ModbusSerialClient E serial_port baudrate parity stopbits bytesize 3 = Ok tt ->
      client_connect E = Ok true ->
      In (EvReadHoldingRegisters 7 2 slave_id) evs)) /\
  (forall model,
     (get_inverter_model_from_device_rtu E serial_port baudrate parity stopbits
        bytesize slave_id w).2 = Ok (Some model) <->
     import_pymodbus E = Ok tt /\
     ModbusSerialClient E serial_port baudrate parity stopbits bytesize 3 = Ok tt /\
     client_connect E = Ok true /\
     exists pdu,
       read_holding_registers E 7 2 slave_id = Ok pdu /\
       client_close E = Ok tt /\
       isError pdu = false /\
       decode_model_from_registers E (registers_dict (registers pdu)) = Ok (Some model)) /\
  (forall model,
     (get_inverter_model_from_device_rtu E serial_port baudrate parity stopbits
        bytesize slave_id w).2 = Ok (Some model) ->
     exists pdu,
       read_holding_registers E 7 2 slave_id = Ok pdu /\ isError pdu = false /\
       decode_model_from_registers E (registers_dict (registers pdu)) = Ok (Some model) /\
       forall i : nat, registers_dict (registers pdu) !! (7 + Z.of_nat i)%Z = registers pdu !! i) /\
  (forall pdu,
     read_holding_registers E 7 2 slave_id = Ok pdu ->
     decode_model_from_registers E (registers_dict (registers pdu)) = Ok None \/
     (exists e, decode_model_from_registers E (registers_dict (registers pdu)) = Raise e) ->
     (get_inverter_model_from_device_rtu E serial_port baudrate parity stopbits
        bytesize slave_id w).2 = Ok None).
Proof.
  destruct (tcp_probe_exchange E host port dongle_serial inverter_serial w)
    as (evs & Hlog & Hwritten & Hwrites & Hsize & Hreadsb).
  destruct (tcp_probe_result E host port dongle_serial inverter_serial w)
    as [_ [_ [Hmodel Habsent]]].
  destruct (rtu_probe_trace E serial_port baudrate parity stopbits bytesize slave_id w)
    as [evs' [Hlog' [Hread [Hreads _]]]].
  destruct (rtu_probe_result E serial_port baudrate parity stopbits bytesize slave_id w)
    as [Hmodel' Habsent'].
  split; [| split; [| split; [exact Hmodel | split; [exact Habsent |]]]].
  - exists (EvOpenConnection host port :: evs). rewrite Hlog. simpl.
    split; [reflexivity |]. split; [| split; [| split]].
    + intros req [Hreq | Hreq]; [discriminate Hreq | auto].
    + intros d i req Ho Hd Hi Hp. right. eauto.
    + intros n [Hn | Hn]; [discriminate Hn | auto].
    + intros d i req Ho Hd Hi Hp Hw Hdr. right. eauto.
  - intros model. apply tcp_probe_Some_iff.
  - split; [| split; [| split; [| exact Habsent']]].
    + exists (EvImportPymodbus :: evs'). rewrite Hlog'. simpl.
      split; [reflexivity |]. split.
      * intros a c s [Hev | Hev]; [discriminate Hev | eauto].
      * intros Hi Hc Hconn. right. auto.
    + intros model. apply rtu_probe_Some_iff.
    + intros model Hm. destruct (Hmodel' model Hm) as [pdu [Hr [He Hd]]].
      exists pdu. repeat split; auto. intros i. apply registers_dict_lookup.
Qed.

Lemma probe_reads_registers_7_and_8_witness :
  (get_inverter_model_from_device_tcp answering_inverter (Str "10.0.0.5") (PyInt 8000)
     (Str "BA12345678") (Str "CD12345678") fresh_world).2 = Ok (Some (code_points "SNA")) /\
  (get_inverter_model_from_device_rtu answering_inverter (Str "/dev/ttyUSB0")
     (PyInt 19200) (Str "N") (PyInt 1) (PyInt 8) (PyInt 1) fresh_world).2 =
    Ok (Some (code_points "SNA")).
Proof.
  destruct (probe_reads_registers_7_and_8 answering_inverter (Str "10.0.0.5") (PyInt 8000)
              (Str "BA12345678") (Str "CD12345678") (Str "/dev/ttyUSB0")
              (PyInt 19200) (Str "N") (PyInt 1) (PyInt 8) (PyInt 1) fresh_world)
    as (_ & Htcp & _ & _ & _ & Hrtu & _).
  split.
  - apply Htcp. split; [reflexivity |].
    do 5 eexists. repeat split; try (vm_compute; reflexivity). discriminate.
  - apply Hrtu. repeat split. eexists. repeat split; vm_compute; reflexivity.
Defined.

(** ** The steps of the flows *)

#[local] Arguments no_errors : simpl never.
#[local] Arguments code_points : simpl never.
#[local] Arguments Str : simpl never.

Lemma no_errors_insert (key code : string) (errors : errors_dict) :
  no_errors (<[key := code]> errors) = false.
Proof. unfold no_errors. apply bool_decide_eq_false. apply insert_non_empty. Qed.

Lemma no_errors_empty : no_errors ∅ = true.
Proof. reflexivity. Qed.

(** From the outcome of a step back to the calls that produced it. *)
Ltac invert_run H :=
  repeat (cbn in H; rewrite ?no_errors_insert, ?no_errors_empty in H;
          try discriminate H; destruct_innermost_in H).

(** Forward, through every outcome of every call. *)
Ltac run_step_cases :=
  repeat first
    [ progress (rewrite ?no_errors_insert, ?no_errors_empty; cbn)
    | destruct_innermost; cbn ].

Lemma validate_connection_retries_Ok (f : pystr -> option Z) (value : pyval) (n : Z) :
  int_value value = Some n -> (1 <= n <= 10)%Z ->
  validate_connection_retries f value = Ok n.
Proof.
  intros Hv Hn. unfold validate_connection_retries.
  assert (py_int f value = Ok n) as ->.
  { destruct value as [| [|] | z | s]; simpl in *; congruence. }
  simpl.
  replace (n <? 1)%Z with false by (symmetry; apply Z.ltb_ge; lia).
  replace (n >? 10)%Z with false by (symmetry; rewrite Z.gtb_ltb; apply Z.ltb_ge; lia).
  reflexivity.
Qed.

Lemma satisfies_field (s : schema) (d : dict) (f : field) :
  satisfies s d = true -> In f s ->
  match d !! f_key f with
  | Some v => accepts (f_check f) v = true
  | None => f_marker f = Optional /\ f_default f = None
  end.
Proof.
  unfold satisfies. rewrite forallb_forall. intros H Hin. specialize (H f Hin).
  destruct (d !! f_key f); [exact H |].
  destruct (f_marker f), (f_default f); try discriminate. auto.
Qed.

(** A submission the TCP schema let through has a retry count that
    validates. *)
Lemma satisfies_tcp_retries (f : pystr -> option Z) (d : dict) :
  satisfies tcp_data_schema d = true ->
  exists n, validate_connection_retries f
              (get_or d CONF_CONNECTION_RETRIES (PyInt DEFAULT_CONNECTION_RETRIES)) = Ok n.
Proof.
  intros H.
  pose proof (satisfies_field _ _
    (Field Required CONF_CONNECTION_RETRIES (Some (PyInt DEFAULT_CONNECTION_RETRIES))
       (vol_All [vol_int; vol_Range 1 10])) H) as Hf.
  cbn [f_key f_check f_marker f_default] in Hf.
  unfold get_or. destruct (d !! CONF_CONNECTION_RETRIES) as [v |].
  - apply accepts_int_range in Hf as [n [Hv Hn]]; [| simpl; tauto].
    exists n. apply validate_connection_retries_Ok; assumption.
  - destruct Hf as [Hf _]; [simpl; tauto | discriminate].
Qed.

(** C1: a TCP submission (a dictionary the schema of the step let
    through) whose dongle serial or inverter serial is not 10 characters
    long gets the form back with [invalid_serial] under the field at fault;
    the world is left as it was, so the probe made no call, not even
    [open_connection]; and the step does not ask for an entry. *)
Theorem tcp_invalid_serial_stops_before_probe (E : environment) (user_input : dict)
    (dongle inverter : pystr) (w : world) :
  satisfies tcp_data_schema user_input = true ->
  user_input !! CONF_DONGLE_SERIAL = Some (PyStr dongle) ->
  user_input !! CONF_INVERTER_SERIAL = Some (PyStr inverter) ->
  length dongle <> 10%nat \/ length inverter <> 10%nat ->
  exists errors : errors_dict,
    async_step_tcp E (Some user_input) w = (w, Ok (ShowForm "tcp" tcp_data_schema errors)) /\
    (length dongle <> 10%nat -> errors !! CONF_DONGLE_SERIAL = Some "invalid_serial") /\
    (length inverter <> 10%nat -> errors !! CONF_INVERTER_SERIAL = Some "invalid_serial").
Proof.
  intros Hs Hd Hi Hbad.
  destruct (satisfies_tcp_retries (int_of_str E) _ Hs) as [n Hn].
  unfold async_step_tcp, getitem. rewrite Hd, Hi. io_unfold. cbn.
  rewrite Hn. cbn.
  destruct (Nat.eq_dec (length dongle) 10) as [Hld | Hld];
    destruct (Nat.eq_dec (length inverter) 10) as [Hli | Hli].
  - tauto.
  - rewrite (proj2 (validate_serial_Ok (PyStr dongle) dongle)) by auto.
    rewrite (validate_serial_Raise (PyStr inverter)) by exact Hli.
    cbn. rewrite no_errors_insert. cbn. destruct w.
    eexists. split; [reflexivity |].
    split; intros; [contradiction | apply lookup_insert_eq].
  - rewrite (validate_serial_Raise (PyStr dongle)) by exact Hld.
    rewrite (proj2 (validate_serial_Ok (PyStr inverter) inverter)) by auto.
    cbn. rewrite no_errors_insert. cbn. destruct w.
    eexists. split; [reflexivity |].
    split; intros; [apply lookup_insert_eq | contradiction].
  - rewrite (validate_serial_Raise (PyStr dongle)) by exact Hld.
    rewrite (validate_serial_Raise (PyStr inverter)) by exact Hli.
    cbn. rewrite no_errors_insert. cbn. destruct w.
    eexists. split; [reflexivity |].
    split; intros; [| apply lookup_insert_eq].
    rewrite lookup_insert_ne by done. apply lookup_insert_eq.
Qed.

Lemma tcp_invalid_serial_stops_before_probe_witness :
  satisfies tcp_data_schema (tcp_submission "BA1234567" "CD12345678") = true /\
  exists errors : errors_dict,
    async_step_tcp answering_inverter (Some (tcp_submission "BA1234567" "CD12345678"))
      fresh_world = (fresh_world, Ok (ShowForm "tcp" tcp_data_schema errors)) /\
    errors !! CONF_DONGLE_SERIAL = Some "invalid_serial".
Proof.
  split; [vm_compute; reflexivity |].
  destruct (tcp_invalid_serial_stops_before_probe answering_inverter
              (tcp_submission "BA1234567" "CD12345678")
              (code_points "BA1234567") (code_points "CD12345678") fresh_world)
    as [errors [Hstep [Hdongle _]]].
  - vm_compute; reflexivity.
  - vm_compute; reflexivity.
  - vm_compute; reflexivity.
  - left. vm_compute. discriminate.
  - exists errors. split; [exact Hstep |]. apply Hdongle. vm_compute. discriminate.
Defined.

(** What a step that asks for an entry went through. *)
Lemma async_step_tcp_CreateEntry (E : environment) (user_input : dict) (w w' : world)
    (title : pyval) (entry_data : dict) :
  async_step_tcp E (Some user_input) w = (w', Ok (CreateEntry title entry_data)) ->
  exists host port dongle inverter model,
    user_input !! CONF_HOST = Some host /\
    user_input !! CONF_PORT = Some port /\
    user_input !! CONF_DONGLE_SERIAL = Some dongle /\
    user_input !! CONF_INVERTER_SERIAL = Some inverter /\
    validate_serial dongle = Ok (py_str dongle) /\
    validate_serial inverter = Ok (py_str inverter) /\
    get_inverter_model_from_device_tcp E host port dongle inverter w = (w', Ok (Some model)) /\
    truthy (PyStr model) = true /\
    entry_data = <["model" := PyStr model]> (<[CONF_PROTOCOL := PROTOCOL_TCP]> user_input).
Proof.
  intros H. unfold async_step_tcp, getitem in H. io_unfold.
  invert_run H.
  destruct w. cbn in *.
  match goal with Hm : negb (truthy (model_value ?m)) = false |- _ =>
    destruct m as [model |]; [| discriminate Hm];
    apply negb_false_iff in Hm end.
  repeat match goal with
  | Hv : validate_serial _ = Ok _ |- _ => apply validate_serial_Ok in Hv as [-> ?]
  end.
  injection H as <- <- <-.
  do 5 eexists. repeat split; try eassumption; try reflexivity.
  all: apply validate_serial_Ok; auto.
Qed.

Lemma async_step_rtu_CreateEntry (E : environment) (user_input : dict) (w w' : world)
    (title : pyval) (entry_data : dict) :
  async_step_rtu E (Some user_input) w = (w', Ok (CreateEntry title entry_data)) ->
  exists slave_id padded model,
    user_input !! CONF_SLAVE_ID = Some slave_id /\
    format_010d slave_id = Ok padded /\
    truthy (PyStr model) = true /\
    entry_data =
      <[CONF_INVERTER_SERIAL := PyStr (code_points "RTU_" ++ padded)]>
        (<[CONF_DONGLE_SERIAL := Str "RTU_DEVICE"]>
           (<["model" := PyStr model]> (<[CONF_PROTOCOL := PROTOCOL_RTU]> user_input))).
Proof.
  intros H. unfold async_step_rtu, getitem, get_serial_ports in H. io_unfold.
  invert_run H.
  destruct w. cbn in *.
  match goal with Hm : negb (truthy (model_value ?m)) = false |- _ =>
    destruct m as [model |]; [| discriminate Hm];
    apply negb_false_iff in Hm end.
  match goal with Hl : _ !! CONF_SLAVE_ID = Some ?p, Hf : format_010d ?p = _ |- _ =>
    rewrite !lookup_insert_ne in Hl by done end.
  injection H as <- <- <-.
  do 3 eexists. repeat split; try eassumption; try reflexivity.
  congruence.
Qed.

(** The probes leave the stored entry alone. *)
Lemma tcp_probe_entry (E : environment) (host port dongle inverter : pyval) (w : world) :
  entry (get_inverter_model_from_device_tcp E host port dongle inverter w).1 = entry w.
Proof.
  destruct (tcp_probe_trace E host port dongle inverter w) as [evs [-> _]]. reflexivity.
Qed.

Lemma rtu_probe_entry (E : environment)
    (serial_port baudrate parity stopbits bytesize slave_id : pyval) (w : world) :
  entry (get_inverter_model_from_device_rtu E serial_port baudrate parity stopbits
           bytesize slave_id w).1 = entry w.
Proof.
  destruct (rtu_probe_trace E serial_port baudrate parity stopbits bytesize slave_id w)
    as [evs [-> _]].
  reflexivity.
Qed.

(** ** The options flow *)

(** A submission that passes is stored: right after the probe, the entry is
    replaced and the reload asked for. *)
Lemma async_step_init_passes (E : environment) (user_input : dict) (w : world)
    (model : pystr) (w1 : world) :
  reconfiguration_passes E (current_config_of (entry w)) user_input w model w1 ->
  entry (async_step_init E (Some user_input) w).1 =
    ConfigEntry (<["model" := PyStr model]> (user_input ∪ current_config_of (entry w))) ∅ /\
  exists evs,
    log (async_step_init E (Some user_input) w).1 =
    log w1 ++
      EvUpdateEntry (<["model" := PyStr model]> (user_input ∪ current_config_of (entry w))) ∅
      :: EvReload :: evs.
Proof.
  intros [[n Hn] [Hm Hp]].
  unfold async_step_init, getitem. io_unfold. cbn. rewrite Hn. cbn.
  rewrite no_errors_empty.
  destruct (py_eq (get_or (current_config_of (entry w)) CONF_PROTOCOL PROTOCOL_TCP)
              PROTOCOL_TCP).
  - destruct Hp as (host & port & dongle & inverter & -> & -> & -> & -> & -> & -> & Hp).
    cbn. rewrite no_errors_empty. cbn. rewrite Hp. cbn. cbn in Hm. rewrite Hm. cbn.
    rewrite no_errors_empty. cbn.
    repeat (destruct_innermost; cbn); (split; [reflexivity |]);
      rewrite <- ?app_assoc; simpl; eexists; reflexivity.
  - destruct Hp as (a & b & c & d & e & f & -> & -> & -> & -> & -> & -> & Hp).
    cbn. rewrite Hp. cbn. cbn in Hm. rewrite Hm. cbn.
    rewrite no_errors_empty. cbn. unfold get_serial_ports. io_unfold.
    repeat (destruct_innermost; cbn); (split; [reflexivity |]);
      rewrite <- ?app_assoc; simpl; eexists; reflexivity.
Qed.

(** Either the entry is what it was, or the submission passed. *)
Lemma async_step_init_entry (E : environment) (user_input : dict) (w : world) :
  entry (async_step_init E (Some user_input) w).1 = entry w \/
  exists model w1,
    reconfiguration_passes E (current_config_of (entry w)) user_input w model w1.
Proof.
  unfold reconfiguration_passes.
  unfold async_step_init, getitem, get_serial_ports. io_unfold. cbn.
  run_step_cases.
  all: try (left; reflexivity).
  all: try match goal with
       | Hp : get_inverter_model_from_device_tcp ?E ?h ?p ?d ?i ?w = (?w0, _)
         |- entry ?w0 = entry ?w \/ _ =>
           left; pose proof (tcp_probe_entry E h p d i w) as He;
           rewrite Hp in He; exact He
       | Hp : get_inverter_model_from_device_rtu ?E ?a ?b ?c ?d ?e ?f ?w = (?w0, _)
         |- entry ?w0 = entry ?w \/ _ =>
           left; pose proof (rtu_probe_entry E a b c d e f w) as He;
           rewrite Hp in He; exact He
       end.
  all: right;
    match goal with Hm : negb (truthy (model_value ?m)) = false |- _ =>
      destruct m as [model |]; [| discriminate Hm];
      apply negb_false_iff in Hm;
      repeat match goal with
      | Hv : validate_serial _ = Ok _ |- _ => apply validate_serial_Ok in Hv as [-> ?]
      end;
      exists model; eexists; (split; [eauto |]); (split; [exact Hm |])
    end.
  all: repeat eexists; try eassumption; try reflexivity.
  all: apply validate_serial_Ok; auto.
Qed.

(** C4: a reconfiguration that passes every check of the options flow
    replaces the stored entry by the previous configuration overlaid with the
    submitted fields and the model just probed, with empty options, and the
    replacement is logged after the calls of the probe; a reconfiguration
    that fails a check, or whose probe finds no model, leaves the stored
    entry as it was; and showing the form without a submission stores
    nothing. *)
Theorem options_flow_stores_after_validation (E : environment) (user_input : dict)
    (w : world) :
  (forall model w1,
     reconfiguration_passes E (current_config_of (entry w)) user_input w model w1 ->
     entry (async_step_init E (Some user_input) w).1 =
       ConfigEntry
         (<["model" := PyStr model]> (user_input ∪ (options (entry w) ∪ data (entry w)))) ∅ /\
     exists evs,
       log (async_step_init E (Some user_input) w).1 =
       log w1 ++
         EvUpdateEntry
           (<["model" := PyStr model]> (user_input ∪ (options (entry w) ∪ data (entry w)))) ∅
         :: EvReload :: evs) /\
  (~ (exists model w1,
        reconfiguration_passes E (current_config_of (entry w)) user_input w model w1) ->
   entry (async_step_init E (Some user_input) w).1 = entry w) /\
  entry (async_step_init E None w).1 = entry w.
Proof.
  split; [| split].
  - intros model w1 Hp. exact (async_step_init_passes E user_input w model w1 Hp).
  - intros Hnot. destruct (async_step_init_entry E user_input w) as [H | H];
      [exact H | contradiction].
  - unfold async_step_init, get_serial_ports. io_unfold. cbn.
    repeat (destruct_innermost; cbn); reflexivity.
Qed.

(** ** The serials of a created entry *)

Lemma tcp_probe_Some_encoded (E : environment) (host port dongle inverter : pyval)
    (w w' : world) (model : pystr) :
  get_inverter_model_from_device_tcp E host port dongle inverter w = (w', Ok (Some model)) ->
  exists d i req,
    py_encode dongle = Ok d /\ py_encode inverter = Ok i /\
    prepare_packet_for_read E d i 7 2 3 = Ok req.
Proof.
  intros H. unfold get_inverter_model_from_device_tcp in H. io_unfold.
  invert_run H. all: try discriminate H.
  do 3 eexists. repeat split; eassumption.
Qed.

Lemma py_encode_Ok (value : pyval) (b : bytes) :
  py_encode value = Ok b -> exists s, value = PyStr s /\ encode_utf8 s = Some b.
Proof.
  destruct value as [| ? | ? | s]; simpl; try discriminate.
  destruct (encode_utf8 s) as [b' |] eqn:He; [| discriminate].
  intros [= <-]. eauto.
Qed.

Lemma code_points_String (c : ascii) (s : string) :
  code_points (String c s) = N_of_ascii c :: code_points s.
Proof. reflexivity. Qed.

Lemma string_of_uint_ascii (u : Decimal.uint) :
  Forall is_ascii (code_points (NilEmpty.string_of_uint u)).
Proof.
  induction u; simpl; rewrite ?code_points_String;
    constructor; try assumption; unfold is_ascii; vm_compute; reflexivity.
Qed.

Lemma decimal_ascii (z : Z) : Forall is_ascii (decimal z).
Proof.
  assert (forall u, Forall is_ascii (code_points (NilZero.string_of_uint u))) as Hu.
  { intros u. destruct u; try apply string_of_uint_ascii.
    repeat constructor. }
  unfold decimal. destruct (Z.to_int z) as [u | u]; simpl.
  - apply Hu.
  - rewrite code_points_String. constructor; [vm_compute; reflexivity | apply Hu].
Qed.

Lemma zero_pad_length (width : nat) (digits : pystr) :
  (width <= length (zero_pad width digits))%nat.
Proof. unfold zero_pad. rewrite length_app, repeat_length. lia. Qed.

Lemma zero_pad_ascii (width : nat) (digits : pystr) :
  Forall is_ascii digits -> Forall is_ascii (zero_pad width digits).
Proof.
  intros H. unfold zero_pad. apply Forall_app. split; [| exact H].
  apply Forall_forall. intros c Hc. apply list_elem_of_In, repeat_spec in Hc. subst.
  vm_compute. reflexivity.
Qed.

(** What [format_010d] prints is ASCII and at least ten characters wide. *)
Lemma format_010d_Ok (value : pyval) (padded : pystr) :
  format_010d value = Ok padded ->
  Forall is_ascii padded /\ (10 <= length padded)%nat.
Proof.
  unfold format_010d.
  destruct value as [| [|] | z | s]; cbn [int_value]; try discriminate.
  all: match goal with |- context [(?n <? 0)%Z] => destruct (n <? 0)%Z end;
    intros [= <-]; split.
  all: try (apply zero_pad_ascii, decimal_ascii).
  all: try (constructor; [vm_compute; reflexivity | apply zero_pad_ascii, decimal_ascii]).
  all: match goal with
       | |- (_ <= length (_ :: zero_pad 9 ?d))%nat =>
           pose proof (zero_pad_length 9 d); cbn [length]; lia
       | |- (_ <= length (zero_pad 10 ?d))%nat => apply zero_pad_length
       end.
Qed.

(** For the slave ids the schema admits it is exactly ten characters. *)
Lemma format_010d_slave_id (value : pyval) (z : Z) (padded : pystr) :
  int_value value = Some z -> (1 <= z <= 247)%Z ->
  format_010d value = Ok padded -> length padded = 10%nat.
Proof.
  intros Hv Hz.
  assert (forallb (fun n => Nat.eqb (length (zero_pad 10 (decimal n))) 10)
            (map Z.of_nat (seq 1 247)) = true) as Hall by (vm_compute; reflexivity).
  rewrite forallb_forall in Hall.
  assert (length (zero_pad 10 (decimal z)) = 10%nat) as Hlen.
  { apply Nat.eqb_eq, Hall, in_map_iff. exists (Z.to_nat z).
    split; [lia | apply in_seq; lia]. }
  unfold format_010d.
  destruct value as [| b | z' | s]; try discriminate; rewrite Hv;
    (replace (z <? 0)%Z with false by (symmetry; apply Z.ltb_ge; lia));
    intros [= <-]; exact Hlen.
Qed.

(** C5, as the code has it: an entry the TCP step creates stores two
    serials that are strings of exactly 10 characters, and of ASCII
    characters if the request builder takes nothing but 10-byte serials; an
    entry the RTU step creates stores the dongle serial [RTU_DEVICE] (10 ASCII
    characters) and the inverter serial [RTU_] followed by the slave id
    padded with zeros to ten digits: ASCII, never less than 14 characters,
    and exactly 14 for a slave id from 1 to 247. *)
Theorem created_entry_serials (E : environment) (user_input : dict) (w w' : world)
    (title : pyval) (entry_data : dict) :
  (async_step_tcp E (Some user_input) w = (w', Ok (CreateEntry title entry_data)) ->
   exists dongle inverter : pystr,
     entry_data !! CONF_DONGLE_SERIAL = Some (PyStr dongle) /\
     entry_data !! CONF_INVERTER_SERIAL = Some (PyStr inverter) /\
     length dongle = 10%nat /\ length inverter = 10%nat /\
     ((forall d i start count function_code req,
         prepare_packet_for_read E d i start count function_code = Ok req ->
         length d = 10%nat /\ length i = 10%nat) ->
      Forall is_ascii dongle /\ Forall is_ascii inverter)) /\
  (async_step_rtu E (Some user_input) w = (w', Ok (CreateEntry title entry_data)) ->
   exists (slave_id : pyval) (padded : pystr),
     user_input !! CONF_SLAVE_ID = Some slave_id /\
     format_010d slave_id = Ok padded /\
     entry_data !! CONF_DONGLE_SERIAL = Some (Str "RTU_DEVICE") /\
     length (code_points "RTU_DEVICE") = 10%nat /\
     Forall is_ascii (code_points "RTU_DEVICE") /\
     entry_data !! CONF_INVERTER_SERIAL = Some (PyStr (code_points "RTU_" ++ padded)) /\
     Forall is_ascii (code_points "RTU_" ++ padded) /\
     (14 <= length (code_points "RTU_" ++ padded))%nat /\
     (forall z, int_value slave_id = Some z -> (1 <= z <= 247)%Z ->
                length (code_points "RTU_" ++ padded) = 14%nat)).
Proof.
  split; intros H.
  - apply async_step_tcp_CreateEntry in H
      as (host & port & dongle & inverter & model & _ & _ & Hd & Hi & Hvd & Hvi & Hp & _ & ->).
    apply tcp_probe_Some_encoded in Hp as (d & i & req & Hed & Hei & Hreq).
    apply py_encode_Ok in Hed as (sd & -> & Hed).
    apply py_encode_Ok in Hei as (si & -> & Hei).
    apply validate_serial_Ok in Hvd as [_ Hvd]. apply validate_serial_Ok in Hvi as [_ Hvi].
    simpl in Hvd, Hvi. exists sd, si.
    split; [rewrite !lookup_insert_ne by done; exact Hd |].
    split; [rewrite !lookup_insert_ne by done; exact Hi |].
    split; [exact Hvd |]. split; [exact Hvi |].
    intros Hbuilder. destruct (Hbuilder _ _ _ _ _ _ Hreq) as [Hld Hli].
    split; [apply (encode_utf8_length sd d Hed) | apply (encode_utf8_length si i Hei)];
      congruence.
  - apply async_step_rtu_CreateEntry in H as (slave_id & padded & model & Hs & Hf & _ & ->).
    destruct (format_010d_Ok _ _ Hf) as [Hascii Hlen].
    exists slave_id, padded.
    split; [exact Hs |]. split; [exact Hf |].
    split; [rewrite lookup_insert_ne by done; apply lookup_insert_eq |].
    split; [reflexivity |].
    split; [repeat constructor |].
    split; [apply lookup_insert_eq |].
    split; [apply Forall_app; split; [repeat constructor | exact Hascii] |].
    split; [rewrite length_app; change (length (code_points "RTU_")) with 4%nat; lia |].
    intros z Hz Hrange. rewrite length_app, (format_010d_slave_id _ _ _ Hz Hrange Hf).
    reflexivity.
Qed.

(** C5, the counterexample: the RTU step, given slave id 1 by an inverter
    that answers, creates an entry whose inverter serial is
    [RTU_0000000001], which has 14 characters. *)
Lemma rtu_entry_inverter_serial_has_14_characters :
  satisfies (rtu_data_schema fallback_serial_ports) (rtu_submission 1) = true /\
  exists w' title entry_data,
    async_step_rtu answering_inverter (Some (rtu_submission 1)) fresh_world =
      (w', Ok (CreateEntry title entry_data)) /\
    entry_data !! CONF_INVERTER_SERIAL = Some (Str "RTU_0000000001") /\
    length (code_points "RTU_0000000001") = 14%nat /\
    length (code_points "RTU_0000000001") <> 10%nat.
Proof.
  split; [vm_compute; reflexivity |].
  do 3 eexists. split; [vm_compute; reflexivity |].
  split; [vm_compute; reflexivity |].
  split; [reflexivity | vm_compute; discriminate].
Qed.

(** The first step of the setup flow only shows forms: entries come from the
    TCP step and from the RTU step. *)
Lemma async_step_user_shows_a_form (E : environment) (user_input : option dict)
    (w w' : world) (title : pyval) (entry_data : dict) :
  async_step_user E user_input w <> (w', Ok (CreateEntry title entry_data)).
Proof.
  intros H. unfold async_step_user, async_step_tcp, async_step_rtu, getitem,
    get_serial_ports in H. io_unfold.
  destruct user_input as [user_input |]; invert_run H.
Qed.

Lemma created_entry_serials_witness :
  exists dongle inverter : pystr,
    data stored_tcp_entry !! CONF_DONGLE_SERIAL = Some (PyStr dongle) /\
    data stored_tcp_entry !! CONF_INVERTER_SERIAL = Some (PyStr inverter) /\
    length dongle = 10%nat /\ length inverter = 10%nat /\
    Forall is_ascii dongle /\ Forall is_ascii inverter.
Proof.
  edestruct (created_entry_serials answering_inverter
               (tcp_submission "BA12345678" "CD12345678") fresh_world
               (async_step_tcp answering_inverter
                  (Some (tcp_submission "BA12345678" "CD12345678")) fresh_world).1
               (Str "Luxpower Inverter") (data stored_tcp_entry))
    as [Htcp _].
  destruct Htcp as (dongle & inverter & Hd & Hi & Hld & Hli & Hascii).
  - vm_compute. reflexivity.
  - exists dongle, inverter. repeat split; try assumption; apply Hascii;
      intros d i start count function_code req; simpl;
      destruct (Nat.eqb (length d) 10) eqn:Hd10; try discriminate;
      destruct (Nat.eqb (length i) 10) eqn:Hi10; try discriminate;
      intros _; split; apply Nat.eqb_eq; assumption.
Defined.

Lemma options_flow_stores_after_validation_witness :
  exists w1,
    reconfiguration_passes answering_inverter (current_config_of stored_tcp_entry)
      (tcp_submission "BA12345678" "EF12345678") (World [] stored_tcp_entry)
      (code_points "SNA") w1 /\
    data (entry (async_step_init answering_inverter
                   (Some (tcp_submission "BA12345678" "EF12345678"))
                   (World [] stored_tcp_entry)).1)
      !! CONF_INVERTER_SERIAL = Some (Str "EF12345678") /\
    entry (async_step_init answering_inverter
             (Some (tcp_submission "BA12345678" "CD1234"))
             (World [] stored_tcp_entry)).1 = stored_tcp_entry.
Proof.
  pose proof (options_flow_stores_after_validation answering_inverter
                (tcp_submission "BA12345678" "EF12345678") (World [] stored_tcp_entry))
    as [Hstored _].
  pose proof (options_flow_stores_after_validation answering_inverter
                (tcp_submission "BA12345678" "CD1234") (World [] stored_tcp_entry))
    as [_ [Hkept _]].
  assert (exists w1,
            reconfiguration_passes answering_inverter (current_config_of stored_tcp_entry)
              (tcp_submission "BA12345678" "EF12345678") (World [] stored_tcp_entry)
              (code_points "SNA") w1) as [w1 Hpass].
  { eexists. split; [eexists; vm_compute; reflexivity |].
    split; [reflexivity |].
    change (py_eq (get_or (current_config_of stored_tcp_entry) CONF_PROTOCOL PROTOCOL_TCP)
              PROTOCOL_TCP) with true. cbv iota.
    exists (Str "10.0.0.5"), (PyInt 8000), (Str "BA12345678"), (Str "EF12345678").
    repeat split; vm_compute; reflexivity. }
  exists w1. split; [exact Hpass |]. split.
  - destruct (Hstored _ _ Hpass) as [-> _]. vm_compute. reflexivity.
  - apply Hkept. intros (model & w2 & _ & _ & Hp).
    change (py_eq (get_or (current_config_of (entry (World [] stored_tcp_entry)))
                     CONF_PROTOCOL PROTOCOL_TCP) PROTOCOL_TCP) with true in Hp.
    cbv iota in Hp.
    destruct Hp as (host & port & dongle & inverter & _ & _ & _ & Hi & _ & Hvi & _).
    vm_compute in Hi. injection Hi as <-. vm_compute in Hvi. discriminate Hvi.
Defined.
(** ** More on the probes *)

(** X1: the calls of the TCP probe are always a non-empty prefix of
    open_connection, write, drain, read(512), close, wait_closed, in that
    order; and the writer is closed exactly on the runs where the connection
    opened, both serials encoded, the request was built, and the write, the
    drain and the read all returned. *)
Theorem tcp_probe_call_sequence (E : environment)
    (host port dongle_serial inverter_serial : pyval) (w : world) :
  exists evs req rest,
    log (get_inverter_model_from_device_tcp E host port dongle_serial inverter_serial w).1
      = log w ++ evs /\
    evs <> [] /\
    [EvOpenConnection host port; EvWrite req; EvDrain; EvRead 512; EvWriterClose;
     EvWaitClosed] = evs ++ rest /\
    (In EvWriterClose evs <->
     open_connection E host port = Ok tt /\
     exists d i buf,
       py_encode dongle_serial = Ok d /\ py_encode inverter_serial = Ok i /\
       prepare_packet_for_read E d i 7 2 3 = Ok req /\
       writer_write E req = Ok tt /\ writer_drain E = Ok tt /\
       reader_read E 512 = Ok buf).
Proof.
  unfold get_inverter_model_from_device_tcp. run_probe;
    rewrite <- ?app_assoc; simpl.
  all: repeat match goal with u : unit |- _ => destruct u end.
  all: match goal with
       | H : prepare_packet_for_read _ _ _ _ _ _ = Ok ?r |- _ =>
           eexists; exists r; eexists
       | _ => eexists; exists []; eexists
       end.
  all: (split; [reflexivity |]); (split; [discriminate |]);
    (split; [reflexivity |]).
  all: split;
    [ intros Hin;
      first
        [ solve [ simpl in Hin;
                  repeat (destruct Hin as [Hin | Hin]; try discriminate Hin);
                  contradiction ]
        | split; [reflexivity |]; do 3 eexists; repeat split; eassumption ]
    | intros [Ho (d & i & buf & Hd & Hi & Hp & Hw & Hdr & Hr)];
      first [ congruence | simpl; tauto ] ].
Qed.

(** X2: the calls of the RTU probe are always a non-empty prefix of the
    import, the construction of the client (timeout 3), connect,
    read_holding_registers(7, 2, slave_id), close, in that order; a client
    that does not connect is neither read nor closed; and the client is
    closed exactly on the runs where it connected and the read returned. *)
Theorem rtu_probe_call_sequence (E : environment)
    (serial_port baudrate parity stopbits bytesize slave_id : pyval) (w : world) :
  exists evs rest,
    log (get_inverter_model_from_device_rtu E serial_port baudrate parity stopbits
           bytesize slave_id w).1 = log w ++ evs /\
    evs <> [] /\
    [EvImportPymodbus;
     EvModbusSerialClient serial_port baudrate parity stopbits bytesize 3;
     EvConnect; EvReadHoldingRegisters 7 2 slave_id; EvClientClose] = evs ++ rest /\
    (client_connect E = Ok false -> ~ In (EvReadHoldingRegisters 7 2 slave_id) evs) /\
    (In EvClientClose evs <->
     import_pymodbus E = Ok tt /\
     ModbusSerialClient E serial_port baudrate parity stopbits bytesize 3 = Ok tt /\
     client_connect E = Ok true /\
     exists pdu, read_holding_registers E 7 2 slave_id = Ok pdu).
Proof.
  unfold get_inverter_model_from_device_rtu. run_probe;
    rewrite <- ?app_assoc; simpl.
  all: repeat match goal with u : unit |- _ => destruct u end.
  all: repeat match goal with
       | H : negb ?b = _ |- _ => is_var b; destruct b; try discriminate H; clear H
       end.
  all: do 2 eexists.
  all: (split; [reflexivity |]); (split; [discriminate |]);
    (split; [reflexivity |]).
  all: split;
    [ intros Hc Hin; simpl in *;
      try congruence;
      try (repeat (destruct Hin as [Hin | Hin]; try discriminate Hin); contradiction)
    | split;
      [ intros Hin;
        try solve [ simpl in *;
                    repeat (destruct Hin as [Hin | Hin]; try discriminate Hin);
                    contradiction ];
        try solve [simpl in *; repeat split; try eassumption; try congruence; eauto]
      | intros (Hi & Hc & Hconn & pdu & Hr);
        try congruence; try solve [simpl in *; congruence]; try solve [simpl; tauto] ] ].
Qed.

(** X3: the TCP probe returns a model exactly when every call of the
    exchange returns (open, both encodings, the request builder, write,
    drain, read, close and wait_closed), the bytes read are not empty, they
    parse to a response without [packet_error], and the decoder finds that
    model in its register map.  In every other case it returns [None]: also
    when a response was read and only [wait_closed] raised. *)
Theorem tcp_probe_finds_model_iff (E : environment)
    (host port dongle_serial inverter_serial : pyval) (w : world) (model : pystr) :
  (get_inverter_model_from_device_tcp E host port dongle_serial inverter_serial w).2 =
    Ok (Some model) <->
  open_connection E host port = Ok tt /\
  exists d i req buf response,
    py_encode dongle_serial = Ok d /\ py_encode inverter_serial = Ok i /\
    prepare_packet_for_read E d i 7 2 3 = Ok req /\
    writer_write E req = Ok tt /\ writer_drain E = Ok tt /\
    reader_read E 512 = Ok buf /\
    writer_close E = Ok tt /\ writer_wait_closed E = Ok tt /\
    buf <> [] /\
    LxpResponse E buf = Ok response /\ packet_error response = false /\
    decode_model_from_registers E (parsed_values_dictionary response) = Ok (Some model).
Proof.
  unfold get_inverter_model_from_device_tcp. split.
  - intros H. revert H. run_probe; intros H; try discriminate H.
    repeat match goal with u : unit |- _ => destruct u end.
    injection H as ->. split; [reflexivity |].
    do 5 eexists. repeat split; try eassumption.
    intros ->. discriminate.
  - intros [Ho (d & i & req & buf & response & Hd & Hi & Hp & Hw & Hdr & Hr & Hc & Hwc &
                Hne & Hresp & Herr & Hdec)].
    io_unfold. cbn. rewrite Ho. cbn. rewrite Hd. cbn. rewrite Hi. cbn. rewrite Hp. cbn.
    rewrite Hw. cbn. rewrite Hdr. cbn. rewrite Hr. cbn. rewrite Hc. cbn. rewrite Hwc. cbn.
    destruct buf; [contradiction |]. cbn. rewrite Hresp. cbn. rewrite Herr. cbn.
    rewrite Hdec. reflexivity.
Qed.

(** X4: the RTU probe returns a model exactly when pymodbus imports, the
    client is constructed, [connect()] returns true, the read of registers
    7 and 8 returns a response that is not an error, [close()] returns, and
    the decoder finds that model in the map [{7 + i: registers[i]}]. *)
Theorem rtu_probe_finds_model_iff (E : environment)
    (serial_port baudrate parity stopbits bytesize slave_id : pyval) (w : world)
    (model : pystr) :
  (get_inverter_model_from_device_rtu E serial_port baudrate parity stopbits
     bytesize slave_id w).2 = Ok (Some model) <->
  import_pymodbus E = Ok tt /\
  ModbusSerialClient E serial_port baudrate parity stopbits bytesize 3 = Ok tt /\
  client_connect E = Ok true /\
  exists pdu,
    read_holding_registers E 7 2 slave_id = Ok pdu /\
    client_close E = Ok tt /\
    isError pdu = false /\
    decode_model_from_registers E (registers_dict (registers pdu)) = Ok (Some model).
Proof.
  unfold get_inverter_model_from_device_rtu. split.
  - intros H. revert H. run_probe; intros H; try discriminate H.
    repeat match goal with u : unit |- _ => destruct u end.
    repeat match goal with
    | Hb : negb ?b = _ |- _ => is_var b; destruct b; try discriminate Hb; clear Hb
    end.
    injection H as ->. repeat split. eexists. repeat split; eassumption.
  - intros (Hi & Hc & Hconn & pdu & Hr & Hcl & Herr & Hdec).
    io_unfold. cbn. rewrite Hi. cbn. rewrite Hc. cbn. rewrite Hconn. cbn.
    rewrite Hr. cbn. rewrite Hcl. cbn. rewrite Herr. cbn. rewrite Hdec. reflexivity.
Qed.

(** ** More on the setup flow *)

Ltac probe_entry_unchanged :=
  match goal with
  | Hp : get_inverter_model_from_device_tcp ?E ?h ?p ?d ?i ?w = (?w0, _)
    |- entry ?w0 = entry ?w =>
      pose proof (tcp_probe_entry E h p d i w) as He; rewrite Hp in He; exact He
  | Hp : get_inverter_model_from_device_rtu ?E ?a ?b ?c ?d ?e ?f ?w = (?w0, _)
    |- entry ?w0 = entry ?w =>
      pose proof (rtu_probe_entry E a b c d e f w) as He; rewrite Hp in He; exact He
  end.

(** X5: no step of the setup flow writes to the configuration entries
    Home Assistant stores, whatever is submitted and however the device
    answers: an entry is only ever asked for through the result of the step. *)
Theorem setup_flow_leaves_store_alone (E : environment) (user_input : option dict)
    (w : world) :
  entry (async_step_user E user_input w).1 = entry w /\
  entry (async_step_tcp E user_input w).1 = entry w /\
  entry (async_step_rtu E user_input w).1 = entry w.
Proof.
  assert (entry (async_step_tcp E user_input w).1 = entry w) as Htcp.
  { unfold async_step_tcp, getitem. io_unfold.
    destruct user_input as [user_input |]; cbn; run_step_cases;
      first [reflexivity | probe_entry_unchanged]. }
  assert (entry (async_step_rtu E user_input w).1 = entry w) as Hrtu.
  { unfold async_step_rtu, getitem, get_serial_ports. io_unfold.
    destruct user_input as [user_input |]; cbn; run_step_cases;
      first [reflexivity | probe_entry_unchanged]. }
  split; [| split; [exact Htcp | exact Hrtu]].
  unfold async_step_user, async_step_tcp, async_step_rtu, getitem, get_serial_ports.
  io_unfold. destruct user_input as [user_input |]; cbn; run_step_cases; reflexivity.
Qed.

(** X6: the first step of the setup flow.  Without a submission it shows
    the protocol form and calls nothing.  The protocol [tcp] leads to the
    empty TCP form; every other value leads to the RTU form, whose port list
    is never empty; a submission without the protocol raises [KeyError].
    The step never asks for an entry. *)
Theorem async_step_user_routes (E : environment) (w : world) :
  async_step_user E None w = (w, Ok (ShowForm "user" user_data_schema ∅)) /\
  (forall user_input protocol,
     user_input !! CONF_PROTOCOL = Some protocol ->
     py_eq protocol PROTOCOL_TCP = true ->
     async_step_user E (Some user_input) w = (w, Ok (ShowForm "tcp" tcp_data_schema ∅))) /\
  (forall user_input protocol,
     user_input !! CONF_PROTOCOL = Some protocol ->
     py_eq protocol PROTOCOL_TCP = false ->
     exists w' serial_ports,
       async_step_user E (Some user_input) w =
         (w', Ok (ShowForm "rtu" (rtu_data_schema serial_ports) ∅)) /\
       serial_ports <> []) /\
  (forall user_input,
     user_input !! CONF_PROTOCOL = None ->
     async_step_user E (Some user_input) w = (w, Raise (KeyError CONF_PROTOCOL))) /\
  (forall user_input w' title entry_data,
     async_step_user E user_input w <> (w', Ok (CreateEntry title entry_data))).
Proof.
  split; [reflexivity |].
  split; [| split; [| split]].
  - intros user_input protocol Hp Heq.
    unfold async_step_user, async_step_tcp, getitem. rewrite Hp. io_unfold. cbn.
    rewrite Heq. cbn. destruct w; reflexivity.
  - intros user_input protocol Hp Heq.
    unfold async_step_user, async_step_rtu, getitem, get_serial_ports. rewrite Hp.
    io_unfold. cbn. rewrite Heq. cbn.
    destruct (comports E) as [[| port ports] | e]; cbn;
      do 2 eexists; (split; [reflexivity | discriminate]).
  - intros user_input Hp. unfold async_step_user, getitem. rewrite Hp. reflexivity.
  - intros user_input w' title entry_data. apply async_step_user_shows_a_form.
Qed.



Lemma tcp_probe_Ok (E : environment) (host port dongle inverter : pyval) (w : world) :
  exists w1 model,
    get_inverter_model_from_device_tcp E host port dongle inverter w = (w1, Ok model).
Proof. apply try_except_Exception_total. Qed.

Lemma rtu_probe_Ok (E : environment)
    (serial_port baudrate parity stopbits bytesize slave_id : pyval) (w : world) :
  exists w1 model,
    get_inverter_model_from_device_rtu E serial_port baudrate parity stopbits bytesize
      slave_id w = (w1, Ok model).
Proof. apply try_except_Exception_total. Qed.

(** The TCP step on a submission that fails one of its three checks. *)
Lemma async_step_tcp_invalid (E : environment) (user_input : dict)
    (dongle inverter : pyval) (n : Z) (w : world) :
  user_input !! CONF_DONGLE_SERIAL = Some dongle ->
  user_input !! CONF_INVERTER_SERIAL = Some inverter ->
  py_int (int_of_str E)
    (get_or user_input CONF_CONNECTION_RETRIES (PyInt DEFAULT_CONNECTION_RETRIES)) = Ok n ->
  length (py_str dongle) <> 10%nat \/ length (py_str inverter) <> 10%nat \/
    (n < 1)%Z \/ (10 < n)%Z ->
  exists errors : errors_dict,
    async_step_tcp E (Some user_input) w =
      (w, Ok (ShowForm "tcp" tcp_data_schema errors)) /\
    errors !! CONF_DONGLE_SERIAL =
      (if Nat.eqb (length (py_str dongle)) 10 then None else Some "invalid_serial") /\
    errors !! CONF_INVERTER_SERIAL =
      (if Nat.eqb (length (py_str inverter)) 10 then None else Some "invalid_serial") /\
    errors !! CONF_CONNECTION_RETRIES =
      (if (1 <=? n)%Z && (n <=? 10)%Z then None else Some "invalid_connection_retries") /\
    errors !! "base" = None.
Proof.
  intros Hd Hi Hn Hbad.
  unfold async_step_tcp, getitem, validate_serial, validate_connection_retries.
  rewrite Hd, Hi, Hn. io_unfold. cbn.
  assert ((n <? 1)%Z || (n >? 10)%Z = negb ((1 <=? n)%Z && (n <=? 10)%Z)) as ->.
  { rewrite Z.gtb_ltb. destruct (Z.ltb_spec n 1), (Z.ltb_spec 10 n),
      (Z.leb_spec 1 n), (Z.leb_spec n 10); simpl; try reflexivity; lia. }
  destruct (Nat.eqb (length (py_str dongle)) 10) eqn:Hld;
    destruct (Nat.eqb (length (py_str inverter)) 10) eqn:Hli;
    destruct ((1 <=? n)%Z && (n <=? 10)%Z) eqn:Hr; cbn;
    rewrite ?no_errors_insert; cbn.
  1: { exfalso. apply Nat.eqb_eq in Hld, Hli. apply andb_true_iff in Hr as [Hr1 Hr2].
       apply Z.leb_le in Hr1, Hr2. lia. }
  all: destruct w; eexists; (split; [reflexivity |]); repeat split; reflexivity.
Qed.

(** The TCP step on a submission that passes its three checks. *)
Lemma async_step_tcp_valid (E : environment) (user_input : dict)
    (host port dongle inverter : pyval) (n : Z) (w : world) :
  user_input !! CONF_HOST = Some host ->
  user_input !! CONF_PORT = Some port ->
  user_input !! CONF_DONGLE_SERIAL = Some dongle ->
  user_input !! CONF_INVERTER_SERIAL = Some inverter ->
  length (py_str dongle) = 10%nat ->
  length (py_str inverter) = 10%nat ->
  validate_connection_retries (int_of_str E)
    (get_or user_input CONF_CONNECTION_RETRIES (PyInt DEFAULT_CONNECTION_RETRIES)) = Ok n ->
  exists w1 model,
    get_inverter_model_from_device_tcp E host port dongle inverter w = (w1, Ok model) /\
    async_step_tcp E (Some user_input) w =
      (w1,
       Ok (if truthy (model_value model)
           then CreateEntry
                  (py_or (get user_input CONF_ENTITY_PREFIX) (Str "Luxpower Inverter"))
                  (<["model" := model_value model]>
                     (<[CONF_PROTOCOL := PROTOCOL_TCP]> user_input))
           else ShowForm "tcp" tcp_data_schema {[ "base" := "model_fetch_failed" ]})).
Proof.
  intros Hh Hp Hd Hi Hld Hli Hn.
  destruct (tcp_probe_Ok E host port dongle inverter w) as (w1 & model & Hprobe).
  exists w1, model. split; [exact Hprobe |].
  unfold async_step_tcp, getitem. rewrite Hh, Hp, Hd, Hi. io_unfold. cbn.
  rewrite (proj2 (validate_serial_Ok dongle _) (conj eq_refl Hld)).
  rewrite (proj2 (validate_serial_Ok inverter _) (conj eq_refl Hli)).
  cbn. rewrite Hn. cbn. rewrite no_errors_empty. cbn. rewrite Hprobe. cbn.
  destruct (truthy (model_value model)); cbn; [| reflexivity].
  unfold get, get_or. rewrite !lookup_insert_ne by done. reflexivity.
Qed.

(** The RTU step on a submission that passes its check and has its fields. *)
Lemma async_step_rtu_valid (E : environment) (user_input : dict)
    (serial_port baudrate parity stopbits bytesize slave_id : pyval) (z n : Z)
    (w : world) :
  user_input !! CONF_SERIAL_PORT = Some serial_port ->
  user_input !! CONF_BAUDRATE = Some baudrate ->
  user_input !! CONF_PARITY = Some parity ->
  user_input !! CONF_STOPBITS = Some stopbits ->
  user_input !! CONF_BYTESIZE = Some bytesize ->
  user_input !! CONF_SLAVE_ID = Some slave_id ->
  int_value slave_id = Some z ->
  validate_connection_retries (int_of_str E)
    (get_or user_input CONF_CONNECTION_RETRIES (PyInt DEFAULT_CONNECTION_RETRIES)) = Ok n ->
  exists w1 model,
    get_inverter_model_from_device_rtu E serial_port baudrate parity stopbits bytesize
      slave_id w = (w1, Ok model) /\
    if truthy (model_value model) then
      exists padded,
        format_010d slave_id = Ok padded /\
        async_step_rtu E (Some user_input) w =
          (w1,
           Ok (CreateEntry
                 (py_or (get user_input CONF_ENTITY_PREFIX) (Str "Luxpower Inverter RTU"))
                 (<[CONF_INVERTER_SERIAL := PyStr (code_points "RTU_" ++ padded)]>
                    (<[CONF_DONGLE_SERIAL := Str "RTU_DEVICE"]>
                       (<["model" := model_value model]>
                          (<[CONF_PROTOCOL := PROTOCOL_RTU]> user_input))))))
    else
      exists serial_ports,
        serial_ports <> [] /\
        async_step_rtu E (Some user_input) w =
          (World (log w1 ++ [EvComports]) (entry w1),
           Ok (ShowForm "rtu" (rtu_data_schema serial_ports)
                 {[ "base" := "model_fetch_failed_rtu" ]})).
Proof.
  intros H1 H2 H3 H4 H5 H6 Hz Hn.
  destruct (rtu_probe_Ok E serial_port baudrate parity stopbits bytesize slave_id w)
    as (w1 & model & Hprobe).
  exists w1, model. split; [exact Hprobe |].
  assert (exists padded, format_010d slave_id = Ok padded) as [padded Hf].
  { unfold format_010d. destruct slave_id as [| [|] | z' | s]; try discriminate Hz;
      cbn [int_value]; match goal with |- context [(?a <? 0)%Z] => destruct (a <? 0)%Z end;
      eauto. }
  unfold async_step_rtu, getitem, get_serial_ports.
  rewrite H1, H2, H3, H4, H5, H6. io_unfold. cbn. rewrite Hn. cbn.
  rewrite no_errors_empty. cbn. rewrite Hprobe. cbn.
  destruct (truthy (model_value model)); cbn.
  - exists padded. split; [exact Hf |].
    rewrite !lookup_insert_ne by done. rewrite H6. cbn. rewrite Hf. cbn.
    unfold get, get_or. rewrite !lookup_insert_ne by done. reflexivity.
  - destruct (comports E) as [[| port ports] | e]; cbn;
      eexists; (split; [| reflexivity]); discriminate.
Qed.

(** X8: the TCP step checks both serials and the retry count before it
    looks at the device and reports every failure at once: when any of the
    three is invalid the form comes back with [invalid_serial] under each
    serial whose rendering is not 10 characters long and
    [invalid_connection_retries] when the count is outside 1..10, with no
    other error, and nothing was called. *)
Theorem tcp_step_reports_every_invalid_field (E : environment) (user_input : dict)
    (dongle inverter : pyval) (n : Z) (w : world) :
  user_input !! CONF_DONGLE_SERIAL = Some dongle ->
  user_input !! CONF_INVERTER_SERIAL = Some inverter ->
  py_int (int_of_str E)
    (get_or user_input CONF_CONNECTION_RETRIES (PyInt DEFAULT_CONNECTION_RETRIES)) = Ok n ->
  length (py_str dongle) <> 10%nat \/ length (py_str inverter) <> 10%nat \/
    (n < 1)%Z \/ (10 < n)%Z ->
  exists errors : errors_dict,
    async_step_tcp E (Some user_input) w =
      (w, Ok (ShowForm "tcp" tcp_data_schema errors)) /\
    errors !! CONF_DONGLE_SERIAL =
      (if Nat.eqb (length (py_str dongle)) 10 then None else Some "invalid_serial") /\
    errors !! CONF_INVERTER_SERIAL =
      (if Nat.eqb (length (py_str inverter)) 10 then None else Some "invalid_serial") /\
    errors !! CONF_CONNECTION_RETRIES =
      (if (1 <=? n)%Z && (n <=? 10)%Z then None else Some "invalid_connection_retries") /\
    errors !! "base" = None.
Proof. apply async_step_tcp_invalid. Qed.

Lemma tcp_step_reports_every_invalid_field_witness :
  exists errors : errors_dict,
    async_step_tcp answering_inverter
      (Some (<[CONF_CONNECTION_RETRIES := PyInt 11]> (tcp_submission "SHORT" "CD12345678")))
      fresh_world = (fresh_world, Ok (ShowForm "tcp" tcp_data_schema errors)) /\
    errors !! CONF_DONGLE_SERIAL = Some "invalid_serial" /\
    errors !! CONF_INVERTER_SERIAL = None /\
    errors !! CONF_CONNECTION_RETRIES = Some "invalid_connection_retries".
Proof.
  destruct (tcp_step_reports_every_invalid_field answering_inverter
              (<[CONF_CONNECTION_RETRIES := PyInt 11]> (tcp_submission "SHORT" "CD12345678"))
              (Str "SHORT") (Str "CD12345678") 11 fresh_world)
    as (errors & Hstep & Hd & Hi & Hr & _).
  - vm_compute; reflexivity.
  - vm_compute; reflexivity.
  - vm_compute; reflexivity.
  - left. vm_compute. discriminate.
  - exists errors. repeat split; assumption.
Defined.

(** X9: a TCP submission whose serials and retry count validate is
    decided by the probe alone.  The step ends in the world the probe left;
    if the probe found a model that is not empty, the step asks for an entry
    that holds the submission, the protocol [tcp] and the model, titled by
    the entity prefix, or [Luxpower Inverter] when the prefix is empty or
    missing; otherwise the form comes back with the single error
    [model_fetch_failed]. *)
Theorem tcp_step_decided_by_probe (E : environment) (user_input : dict)
    (host port dongle inverter : pyval) (n : Z) (w : world) :
  user_input !! CONF_HOST = Some host ->
  user_input !! CONF_PORT = Some port ->
  user_input !! CONF_DONGLE_SERIAL = Some dongle ->
  user_input !! CONF_INVERTER_SERIAL = Some inverter ->
  length (py_str dongle) = 10%nat ->
  length (py_str inverter) = 10%nat ->
  validate_connection_retries (int_of_str E)
    (get_or user_input CONF_CONNECTION_RETRIES (PyInt DEFAULT_CONNECTION_RETRIES)) = Ok n ->
  exists w1 model,
    get_inverter_model_from_device_tcp E host port dongle inverter w = (w1, Ok model) /\
    async_step_tcp E (Some user_input) w =
      (w1,
       Ok (if truthy (model_value model)
           then CreateEntry
                  (py_or (get user_input CONF_ENTITY_PREFIX) (Str "Luxpower Inverter"))
                  (<["model" := model_value model]>
                     (<[CONF_PROTOCOL := PROTOCOL_TCP]> user_input))
           else ShowForm "tcp" tcp_data_schema {[ "base" := "model_fetch_failed" ]})).
Proof. apply async_step_tcp_valid. Qed.

Lemma tcp_step_decided_by_probe_witness :
  exists w1,
    async_step_tcp answering_inverter (Some (tcp_submission "BA12345678" "CD12345678"))
      fresh_world =
    (w1, Ok (CreateEntry (Str "Luxpower Inverter") (data stored_tcp_entry))).
Proof.
  destruct (tcp_step_decided_by_probe answering_inverter
              (tcp_submission "BA12345678" "CD12345678")
              (Str "10.0.0.5") (PyInt 8000) (Str "BA12345678") (Str "CD12345678") 3
              fresh_world)
    as (w1 & model & Hprobe & Hstep); try (vm_compute; reflexivity).
  exists w1. rewrite Hstep.
  assert (model = Some (code_points "SNA")) as ->.
  { vm_compute in Hprobe. injection Hprobe as _ <-. reflexivity. }
  reflexivity.
Defined.


(** X10: an RTU submission whose retry count validates, that has the six
    serial line fields, and whose slave id is an integer, is decided by the
    probe alone.  If the probe found a model that is not empty, the step ends
    in the world the probe left and asks for an entry that holds the
    submission, the protocol [rtu], the model and the two synthesized
    serials, titled by the entity prefix, or [Luxpower Inverter RTU] when the
    prefix is empty or missing; otherwise the form comes back with the single
    error [model_fetch_failed_rtu].  The error [unknown] does not occur. *)
Theorem rtu_step_decided_by_probe (E : environment) (user_input : dict)
    (serial_port baudrate parity stopbits bytesize slave_id : pyval) (z n : Z)
    (w : world) :
  user_input !! CONF_SERIAL_PORT = Some serial_port ->
  user_input !! CONF_BAUDRATE = Some baudrate ->
  user_input !! CONF_PARITY = Some parity ->
  user_input !! CONF_STOPBITS = Some stopbits ->
  user_input !! CONF_BYTESIZE = Some bytesize ->
  user_input !! CONF_SLAVE_ID = Some slave_id ->
  int_value slave_id = Some z ->
  validate_connection_retries (int_of_str E)
    (get_or user_input CONF_CONNECTION_RETRIES (PyInt DEFAULT_CONNECTION_RETRIES)) = Ok n ->
  exists w1 model,
    get_inverter_model_from_device_rtu E serial_port baudrate parity stopbits bytesize
      slave_id w = (w1, Ok model) /\
    if truthy (model_value model) then
      exists padded,
        format_010d slave_id = Ok padded /\
        async_step_rtu E (Some user_input) w =
          (w1,
           Ok (CreateEntry
                 (py_or (get user_input CONF_ENTITY_PREFIX) (Str "Luxpower Inverter RTU"))
                 (<[CONF_INVERTER_SERIAL := PyStr (code_points "RTU_" ++ padded)]>
                    (<[CONF_DONGLE_SERIAL := Str "RTU_DEVICE"]>
                       (<["model" := model_value model]>
                          (<[CONF_PROTOCOL := PROTOCOL_RTU]> user_input))))))
    else
      exists serial_ports,
        serial_ports <> [] /\
        async_step_rtu E (Some user_input) w =
          (World (log w1 ++ [EvComports]) (entry w1),
           Ok (ShowForm "rtu" (rtu_data_schema serial_ports)
                 {[ "base" := "model_fetch_failed_rtu" ]})).
Proof. apply async_step_rtu_valid. Qed.

Lemma rtu_step_decided_by_probe_witness :
  exists w1,
    async_step_rtu answering_inverter (Some (rtu_submission 5)) fresh_world =
    (w1,
     Ok (CreateEntry (Str "Luxpower Inverter RTU")
           (<[CONF_INVERTER_SERIAL := Str "RTU_0000000005"]>
              (<[CONF_DONGLE_SERIAL := Str "RTU_DEVICE"]>
                 (<["model" := Str "SNA"]>
                    (<[CONF_PROTOCOL := PROTOCOL_RTU]> (rtu_submission 5))))))).
Proof.
  destruct (rtu_step_decided_by_probe answering_inverter (rtu_submission 5)
              (Str "/dev/ttyUSB0") (PyInt 19200) (Str "N") (PyInt 1) (PyInt 8) (PyInt 5)
              5 3 fresh_world)
    as (w1 & model & Hprobe & Hstep); try (vm_compute; reflexivity).
  exists w1.
  assert (model = Some (code_points "SNA")) as ->.
  { vm_compute in Hprobe. injection Hprobe as _ <-. reflexivity. }
  cbn [truthy model_value] in Hstep.
  destruct Hstep as (padded & Hf & Hstep). rewrite Hstep.
  vm_compute in Hf. injection Hf as <-. reflexivity.
Defined.

(** X11: the TCP step catches [vol.Invalid] only.  A submission without
    the dongle serial, or without the inverter serial, raises [KeyError] out
    of the step; and when [int()] cannot convert the retry count ([None], a
    string that is no number) the step raises what [int()] raised.  In each
    case nothing was called and no form is shown. *)
Theorem tcp_step_raises_what_it_does_not_validate (E : environment)
    (user_input : dict) (w : world) :
  (user_input !! CONF_DONGLE_SERIAL = None ->
   async_step_tcp E (Some user_input) w = (w, Raise (KeyError CONF_DONGLE_SERIAL))) /\
  (forall dongle,
     user_input !! CONF_DONGLE_SERIAL = Some dongle ->
     user_input !! CONF_INVERTER_SERIAL = None ->
     async_step_tcp E (Some user_input) w = (w, Raise (KeyError CONF_INVERTER_SERIAL))) /\
  (forall dongle inverter e,
     user_input !! CONF_DONGLE_SERIAL = Some dongle ->
     user_input !! CONF_INVERTER_SERIAL = Some inverter ->
     py_int (int_of_str E)
       (get_or user_input CONF_CONNECTION_RETRIES (PyInt DEFAULT_CONNECTION_RETRIES)) =
       Raise e ->
     async_step_tcp E (Some user_input) w = (w, Raise e) /\
     (e = TypeError \/ e = ValueError)).
Proof.
  split; [| split].
  - intros Hd. unfold async_step_tcp, getitem. rewrite Hd. io_unfold. cbn.
    destruct w; reflexivity.
  - intros dongle Hd Hi. unfold async_step_tcp, getitem. rewrite Hd, Hi. io_unfold. cbn.
    destruct (validate_serial dongle) as [s | e] eqn:Hv; cbn.
    + destruct w; reflexivity.
    + unfold validate_serial in Hv.
      destruct (negb (Nat.eqb (length (py_str dongle)) 10)); [| discriminate Hv].
      injection Hv as <-. cbn. destruct w; reflexivity.
  - intros dongle inverter e Hd Hi Hn.
    assert (e = TypeError \/ e = ValueError) as He.
    { unfold py_int in Hn.
      destruct (get_or user_input CONF_CONNECTION_RETRIES _) as [| b | z | s];
        cbn in Hn; repeat case_match; try discriminate Hn; injection Hn as <-; auto. }
    split; [| exact He].
    unfold async_step_tcp, getitem, validate_connection_retries.
    rewrite Hd, Hi, Hn. io_unfold. cbn.
    assert (is_Invalid e = false) as Hinv by (destruct He as [-> | ->]; reflexivity).
    unfold validate_serial.
    destruct (negb (Nat.eqb (length (py_str dongle)) 10));
      destruct (negb (Nat.eqb (length (py_str inverter)) 10)); cbn;
      rewrite Hinv; destruct w; reflexivity.
Qed.

(** X12: the RTU step turns every exception of its probing block into
    the error [unknown].  With a valid retry count, a submission that lacks
    one of the six serial line fields gets the form back with the single
    error [unknown], and the serial line was not touched (the only call is the
    listing of the ports for the form); and if the probe found a model but
    the slave id is not an integer, so that it cannot be formatted, the form
    comes back with [unknown] as well and no entry is asked for. *)
Theorem rtu_step_reports_unknown (E : environment) (user_input : dict) (n : Z)
    (w : world) :
  validate_connection_retries (int_of_str E)
    (get_or user_input CONF_CONNECTION_RETRIES (PyInt DEFAULT_CONNECTION_RETRIES)) = Ok n ->
  (user_input !! CONF_SERIAL_PORT = None \/ user_input !! CONF_BAUDRATE = None \/
   user_input !! CONF_PARITY = None \/ user_input !! CONF_STOPBITS = None \/
   user_input !! CONF_BYTESIZE = None \/ user_input !! CONF_SLAVE_ID = None ->
   exists serial_ports,
     async_step_rtu E (Some user_input) w =
       (World (log w ++ [EvComports]) (entry w),
        Ok (ShowForm "rtu" (rtu_data_schema serial_ports) {[ "base" := "unknown" ]}))) /\
  (forall serial_port baudrate parity stopbits bytesize slave_id w1 model,
     user_input !! CONF_SERIAL_PORT = Some serial_port ->
     user_input !! CONF_BAUDRATE = Some baudrate ->
     user_input !! CONF_PARITY = Some parity ->
     user_input !! CONF_STOPBITS = Some stopbits ->
     user_input !! CONF_BYTESIZE = Some bytesize ->
     user_input !! CONF_SLAVE_ID = Some slave_id ->
     int_value slave_id = None ->
     get_inverter_model_from_device_rtu E serial_port baudrate parity stopbits bytesize
       slave_id w = (w1, Ok (Some model)) ->
     truthy (PyStr model) = true ->
     exists serial_ports,
       async_step_rtu E (Some user_input) w =
         (World (log w1 ++ [EvComports]) (entry w1),
          Ok (ShowForm "rtu" (rtu_data_schema serial_ports) {[ "base" := "unknown" ]}))).
Proof.
  intros Hn. split.
  - intros Hmissing.
    unfold async_step_rtu, getitem, get_serial_ports. io_unfold. cbn. rewrite Hn. cbn.
    rewrite no_errors_empty. cbn.
    destruct (user_input !! CONF_SERIAL_PORT) eqn:H1;
      destruct (user_input !! CONF_BAUDRATE) eqn:H2;
      destruct (user_input !! CONF_PARITY) eqn:H3;
      destruct (user_input !! CONF_STOPBITS) eqn:H4;
      destruct (user_input !! CONF_BYTESIZE) eqn:H5;
      destruct (user_input !! CONF_SLAVE_ID) eqn:H6; cbn;
      try (exfalso; intuition discriminate);
      destruct (comports E) as [[| port ports] | e]; cbn; eexists; reflexivity.
  - intros serial_port baudrate parity stopbits bytesize slave_id w1 model
      H1 H2 H3 H4 H5 H6 Hz Hprobe Hm.
    assert (exists e, format_010d slave_id = Raise e) as [e Hf].
    { destruct slave_id as [| [|] | z | s]; try discriminate Hz; cbn; eauto. }
    unfold async_step_rtu, getitem, get_serial_ports.
    rewrite H1, H2, H3, H4, H5, H6. io_unfold. cbn. rewrite Hn. cbn.
    rewrite no_errors_empty. cbn. rewrite Hprobe. cbn. cbn in Hm. rewrite Hm. cbn.
    rewrite !lookup_insert_ne by done. rewrite H6. cbn. rewrite Hf. cbn.
    destruct (comports E) as [[| port ports] | e']; cbn; eexists; reflexivity.
Qed.

Lemma rtu_step_reports_unknown_witness :
  exists serial_ports,
    async_step_rtu answering_inverter (Some (delete CONF_BAUDRATE (rtu_submission 1)))
      fresh_world =
    (World [EvComports] (entry fresh_world),
     Ok (ShowForm "rtu" (rtu_data_schema serial_ports) {[ "base" := "unknown" ]})).
Proof.
  destruct (rtu_step_reports_unknown answering_inverter
              (delete CONF_BAUDRATE (rtu_submission 1)) 3 fresh_world)
    as [Hmissing _]; [vm_compute; reflexivity |].
  apply Hmissing. right. left. vm_compute. reflexivity.
Defined.

(** X13: every entry the TCP step asks for holds the protocol [tcp], the
    model the probe returned for the submitted host, port and serials, which
    is not empty, and every other submitted field as it was submitted (a
    submitted [protocol] or [model] is overwritten); its title is the entity
    prefix, or [Luxpower Inverter] when the prefix is empty or missing, so the
    title is never empty. *)
Theorem tcp_entry_keeps_submission (E : environment) (user_input : dict) (w w' : world)
    (title : pyval) (entry_data : dict) :
  async_step_tcp E (Some user_input) w = (w', Ok (CreateEntry title entry_data)) ->
  entry_data !! CONF_PROTOCOL = Some PROTOCOL_TCP /\
  (exists host port dongle inverter model,
     user_input !! CONF_HOST = Some host /\ user_input !! CONF_PORT = Some port /\
     user_input !! CONF_DONGLE_SERIAL = Some dongle /\
     user_input !! CONF_INVERTER_SERIAL = Some inverter /\
     get_inverter_model_from_device_tcp E host port dongle inverter w =
       (w', Ok (Some model)) /\
     model <> [] /\ entry_data !! "model" = Some (PyStr model)) /\
  (forall key, key <> CONF_PROTOCOL -> key <> "model" ->
               entry_data !! key = user_input !! key) /\
  title = py_or (get user_input CONF_ENTITY_PREFIX) (Str "Luxpower Inverter") /\
  truthy title = true.
Proof.
  intros H. unfold async_step_tcp, getitem in H. io_unfold.
  invert_run H.
  destruct w. cbn in *.
  match goal with Hm' : negb (truthy (model_value ?m)) = false |- _ =>
    destruct m as [model |]; [| discriminate Hm'];
    apply negb_false_iff in Hm'; rename Hm' into Hm end.
  injection H as <- <- <-.
  split; [rewrite lookup_insert_ne by done; apply lookup_insert_eq |].
  split.
  { do 5 eexists. repeat split; try eassumption; try reflexivity.
    - intros ->. vm_compute in Hm. discriminate Hm.
    - apply lookup_insert_eq. }
  split; [intros key Hk1 Hk2; rewrite !lookup_insert_ne by done; reflexivity |].
  unfold get, get_or. rewrite !lookup_insert_ne by done.
  split; [reflexivity |].
  unfold py_or.
  match goal with |- truthy (if truthy ?x then _ else _) = true =>
    destruct (truthy x) eqn:Ht; [exact Ht | reflexivity] end.
Qed.

Lemma tcp_entry_keeps_submission_witness :
  data stored_tcp_entry !! CONF_PROTOCOL = Some PROTOCOL_TCP /\
  data stored_tcp_entry !! CONF_POLL_INTERVAL = Some (PyInt 60).
Proof.
  destruct (tcp_entry_keeps_submission answering_inverter
              (tcp_submission "BA12345678" "CD12345678") fresh_world
              (async_step_tcp answering_inverter
                 (Some (tcp_submission "BA12345678" "CD12345678")) fresh_world).1
              (Str "Luxpower Inverter") (data stored_tcp_entry))
    as (Hp & _ & Hkeep & _); [vm_compute; reflexivity |].
  split; [exact Hp |].
  rewrite (Hkeep CONF_POLL_INTERVAL) by discriminate. vm_compute. reflexivity.
Defined.

(** X14: every entry the RTU step asks for holds the protocol [rtu], a
    model that is not empty, the dongle serial [RTU_DEVICE], the inverter
    serial made from the submitted slave id, and every other submitted field
    as it was submitted (a submitted protocol, model or serial is
    overwritten); its title is the entity prefix, or [Luxpower Inverter RTU]
    when the prefix is empty or missing. *)
Theorem rtu_entry_keeps_submission (E : environment) (user_input : dict) (w w' : world)
    (title : pyval) (entry_data : dict) :
  async_step_rtu E (Some user_input) w = (w', Ok (CreateEntry title entry_data)) ->
  entry_data !! CONF_PROTOCOL = Some PROTOCOL_RTU /\
  (exists model, model <> [] /\ entry_data !! "model" = Some (PyStr model)) /\
  entry_data !! CONF_DONGLE_SERIAL = Some (Str "RTU_DEVICE") /\
  (exists slave_id padded,
     user_input !! CONF_SLAVE_ID = Some slave_id /\
     format_010d slave_id = Ok padded /\
     entry_data !! CONF_INVERTER_SERIAL = Some (PyStr (code_points "RTU_" ++ padded))) /\
  (forall key, key <> CONF_PROTOCOL -> key <> "model" ->
               key <> CONF_DONGLE_SERIAL -> key <> CONF_INVERTER_SERIAL ->
               entry_data !! key = user_input !! key) /\
  title = py_or (get user_input CONF_ENTITY_PREFIX) (Str "Luxpower Inverter RTU") /\
  truthy title = true.
Proof.
  intros H. unfold async_step_rtu, getitem, get_serial_ports in H. io_unfold.
  invert_run H.
  destruct w. cbn in *.
  match goal with Hm' : negb (truthy (model_value ?m)) = false |- _ =>
    destruct m as [model |]; [| discriminate Hm'];
    apply negb_false_iff in Hm'; rename Hm' into Hm end.
  match goal with Hl : _ !! CONF_SLAVE_ID = Some ?p, Hf : format_010d ?p = _ |- _ =>
    rewrite !lookup_insert_ne in Hl by done end.
  injection H as <- <- <-.
  split; [rewrite !lookup_insert_ne by done; apply lookup_insert_eq |].
  split.
  { exists model. split; [intros ->; vm_compute in Hm; discriminate Hm |].
    rewrite !lookup_insert_ne by done. apply lookup_insert_eq. }
  split; [rewrite lookup_insert_ne by done; apply lookup_insert_eq |].
  split.
  { match goal with
    | Hf : format_010d ?p = Ok ?a, Hl : _ !! _ = Some ?p |- _ =>
        exists p, a; split; [congruence |]; split; [exact Hf |]
    end.
    apply lookup_insert_eq. }
  split; [intros key Hk1 Hk2 Hk3 Hk4; rewrite !lookup_insert_ne by done; reflexivity |].
  unfold get, get_or. rewrite !lookup_insert_ne by done.
  split; [reflexivity |].
  unfold py_or.
  match goal with |- truthy (if truthy ?x then _ else _) = true =>
    destruct (truthy x) eqn:Ht; [exact Ht | reflexivity] end.
Qed.

Lemma rtu_entry_keeps_submission_witness :
  exists entry_data : dict,
    entry_data !! CONF_PROTOCOL = Some PROTOCOL_RTU /\
    entry_data !! CONF_BAUDRATE = Some (PyInt 19200) /\
    entry_data !! CONF_DONGLE_SERIAL = Some (Str "RTU_DEVICE").
Proof.
  exists (<[CONF_INVERTER_SERIAL := Str "RTU_0000000005"]>
            (<[CONF_DONGLE_SERIAL := Str "RTU_DEVICE"]>
               (<["model" := Str "SNA"]>
                  (<[CONF_PROTOCOL := PROTOCOL_RTU]> (rtu_submission 5))))).
  destruct (rtu_entry_keeps_submission answering_inverter (rtu_submission 5) fresh_world
              (async_step_rtu answering_inverter (Some (rtu_submission 5)) fresh_world).1
              (Str "Luxpower Inverter RTU")
              (<[CONF_INVERTER_SERIAL := Str "RTU_0000000005"]>
                 (<[CONF_DONGLE_SERIAL := Str "RTU_DEVICE"]>
                    (<["model" := Str "SNA"]>
                       (<[CONF_PROTOCOL := PROTOCOL_RTU]> (rtu_submission 5))))))
    as (Hp & _ & Hd & _ & Hkeep & _); [vm_compute; reflexivity |].
  split; [exact Hp |]. split; [| exact Hd].
  rewrite (Hkeep CONF_BAUDRATE) by discriminate. vm_compute. reflexivity.
Defined.

(** The digits [format_010d] prints can be read back, whatever the padding. *)
Lemma zero_pad_decimal_read :
  exists read : pystr -> Z,
    forall (width : nat) (z : Z), (0 <= z)%Z -> read (zero_pad width (decimal z)) = z.
Proof.
  exists (fun s =>
            match NilEmpty.uint_of_string (string_of_list_ascii (map ascii_of_N s)) with
            | Some u => Z.of_N (Pos.of_uint u)
            | None => 0%Z
            end).
  intros width z Hz. unfold zero_pad, decimal.
  set (k := (width - _)%nat). clearbody k.
  set (s := NilZero.string_of_int (Z.to_int z)).
  assert (NilEmpty.uint_of_string
            (string_of_list_ascii (map ascii_of_N (repeat 48%N k ++ code_points s))) =
          option_map (Nat.iter k Decimal.D0) (NilEmpty.uint_of_string s)) as ->.
  { induction k as [| k IH]; simpl.
    - unfold code_points. rewrite map_map.
      rewrite (map_ext _ (fun a => a)) by (intros; apply ascii_N_embedding).
      rewrite map_id, string_of_list_ascii_of_string.
      destruct (NilEmpty.uint_of_string s); reflexivity.
    - rewrite IH. destruct (NilEmpty.uint_of_string s); reflexivity. }
  assert (forall u, Pos.of_uint (Nat.iter k Decimal.D0 u) = Pos.of_uint u) as Hiter.
  { intros u. induction k as [| k IH]; simpl; auto. }
  assert (exists u, NilEmpty.uint_of_string s = Some u /\ Z.of_N (Pos.of_uint u) = z)
    as (u & -> & Hu).
  { subst s. destruct z as [| p | p]; [| | lia].
    - exists (Decimal.D0 Decimal.Nil). split; reflexivity.
    - simpl. pose proof (DecimalPos.Unsigned.of_to p) as Hp.
      destruct (Pos.to_uint p) as [| u | u | u | u | u | u | u | u | u | u] eqn:Hd;
        [discriminate Hp | ..];
        (eexists; split; [apply NilEmpty.usu | rewrite Hp; reflexivity]). }
  simpl. rewrite Hiter. exact Hu.
Qed.

(** X15: the inverter serial the RTU step synthesizes identifies the
    slave id: two entries created for different slave ids (none negative)
    store different inverter serials. *)
Theorem rtu_inverter_serial_identifies_slave (E1 E2 : environment)
    (input1 input2 : dict) (w1 w1' w2 w2' : world) (title1 title2 : pyval)
    (data1 data2 : dict) (slave1 slave2 : pyval) (z1 z2 : Z) :
  async_step_rtu E1 (Some input1) w1 = (w1', Ok (CreateEntry title1 data1)) ->
  async_step_rtu E2 (Some input2) w2 = (w2', Ok (CreateEntry title2 data2)) ->
  input1 !! CONF_SLAVE_ID = Some slave1 -> int_value slave1 = Some z1 -> (0 <= z1)%Z ->
  input2 !! CONF_SLAVE_ID = Some slave2 -> int_value slave2 = Some z2 -> (0 <= z2)%Z ->
  z1 <> z2 ->
  data1 !! CONF_INVERTER_SERIAL <> data2 !! CONF_INVERTER_SERIAL.
Proof.
  intros H1 H2 Hs1 Hv1 Hz1 Hs2 Hv2 Hz2 Hne Heq.
  apply async_step_rtu_CreateEntry in H1 as (s1 & p1 & m1 & Hs1' & Hf1 & _ & ->).
  apply async_step_rtu_CreateEntry in H2 as (s2 & p2 & m2 & Hs2' & Hf2 & _ & ->).
  rewrite !lookup_insert_eq in Heq. injection Heq as Heq.
  try apply app_inv_head in Heq. subst p2.
  assert (s1 = slave1) by congruence. assert (s2 = slave2) by congruence. subst.
  assert (forall v z p, int_value v = Some z -> (0 <= z)%Z -> format_010d v = Ok p ->
                        p = zero_pad 10 (decimal z)) as Hfmt.
  { intros v z p Hv Hz Hf. unfold format_010d in Hf.
    destruct v as [| [|] | z' | s]; try discriminate Hv; cbn [int_value] in *;
      injection Hv as <-;
      match type of Hf with context [(?a <? 0)%Z] =>
        replace (a <? 0)%Z with false in Hf by (symmetry; apply Z.ltb_ge; lia) end;
      injection Hf as <-; reflexivity. }
  destruct zero_pad_decimal_read as [read Hread].
  apply Hne. rewrite <- (Hread 10%nat z1 Hz1), <- (Hread 10%nat z2 Hz2).
  rewrite <- (Hfmt _ _ _ Hv1 Hz1 Hf1), <- (Hfmt _ _ _ Hv2 Hz2 Hf2). reflexivity.
Qed.

Lemma rtu_inverter_serial_identifies_slave_witness :
  exists data1 data2 : dict,
    data1 !! CONF_INVERTER_SERIAL = Some (Str "RTU_0000000001") /\
    data2 !! CONF_INVERTER_SERIAL = Some (Str "RTU_0000000002") /\
    data1 !! CONF_INVERTER_SERIAL <> data2 !! CONF_INVERTER_SERIAL.
Proof.
  exists (<[CONF_INVERTER_SERIAL := Str "RTU_0000000001"]>
            (<[CONF_DONGLE_SERIAL := Str "RTU_DEVICE"]>
               (<["model" := Str "SNA"]>
                  (<[CONF_PROTOCOL := PROTOCOL_RTU]> (rtu_submission 1))))),
         (<[CONF_INVERTER_SERIAL := Str "RTU_0000000002"]>
            (<[CONF_DONGLE_SERIAL := Str "RTU_DEVICE"]>
               (<["model" := Str "SNA"]>
                  (<[CONF_PROTOCOL := PROTOCOL_RTU]> (rtu_submission 2))))).
  split; [apply lookup_insert_eq |]. split; [apply lookup_insert_eq |].
  apply (rtu_inverter_serial_identifies_slave answering_inverter answering_inverter
           (rtu_submission 1) (rtu_submission 2) fresh_world
           (async_step_rtu answering_inverter (Some (rtu_submission 1)) fresh_world).1
           fresh_world
           (async_step_rtu answering_inverter (Some (rtu_submission 2)) fresh_world).1
           (Str "Luxpower Inverter RTU") (Str "Luxpower Inverter RTU") _ _
           (PyInt 1) (PyInt 2) 1 2);
    try (vm_compute; reflexivity); try lia.
Defined.

(** ** More on the options flow *)

(** X16: the options step never raises: whatever is submitted, whatever
    the stored entry holds and however the device and the reload answer, it
    returns a form or the empty result that ends the flow.  (The TCP step of
    the setup flow, in contrast, lets [KeyError] and the errors of [int()]
    through.) *)
Theorem options_step_never_raises (E : environment) (user_input : option dict)
    (w : world) :
  exists w' result,
    async_step_init E user_input w = (w', Ok result) /\
    (result = CreateEntry (Str EmptyString) ∅ \/
     exists data_schema errors, result = ShowForm "init" data_schema errors).
Proof.
  unfold async_step_init, getitem, get_serial_ports. io_unfold.
  destruct user_input as [user_input |]; cbn; run_step_cases;
    do 2 eexists; (split; [reflexivity |]); eauto.
Qed.

(** X17: in the options flow an invalid retry count ends the checks: the
    serials are not validated and the device is not probed.  The form comes
    back with the single error [invalid_connection_retries], the stored entry
    is unchanged, and the only call that may have been made is the listing of
    the serial ports for the RTU form. *)
Theorem options_step_stops_at_invalid_retries (E : environment) (user_input : dict)
    (n : Z) (w : world) :
  py_int (int_of_str E)
    (get_or user_input CONF_CONNECTION_RETRIES (PyInt DEFAULT_CONNECTION_RETRIES)) = Ok n ->
  (n < 1)%Z \/ (10 < n)%Z ->
  exists w' data_schema,
    async_step_init E (Some user_input) w =
      (w', Ok (ShowForm "init" data_schema
                 {[ CONF_CONNECTION_RETRIES := "invalid_connection_retries" ]})) /\
    entry w' = entry w /\
    (log w' = log w \/ log w' = log w ++ [EvComports]).
Proof.
  intros Hn Hrange.
  unfold async_step_init, getitem, get_serial_ports, validate_connection_retries.
  rewrite Hn. io_unfold. cbn.
  assert ((n <? 1)%Z || (n >? 10)%Z = true) as ->.
  { rewrite Z.gtb_ltb. apply orb_true_iff.
    destruct Hrange; [left | right]; apply Z.ltb_lt; lia. }
  cbn. rewrite no_errors_insert. cbn.
  destruct (py_eq _ PROTOCOL_TCP); cbn.
  - destruct w. do 2 eexists. split; [reflexivity |]. split; [reflexivity |]. left.
    reflexivity.
  - destruct (comports E) as [[| port ports] | e]; cbn;
      do 2 eexists; (split; [reflexivity |]); (split; [reflexivity |]); right; reflexivity.
Qed.

Lemma options_step_stops_at_invalid_retries_witness :
  exists w' data_schema,
    async_step_init answering_inverter
      (Some (<[CONF_CONNECTION_RETRIES := PyInt 0]> (tcp_submission "BAD" "WORSE")))
      (World [] stored_tcp_entry) =
      (w', Ok (ShowForm "init" data_schema
                 {[ CONF_CONNECTION_RETRIES := "invalid_connection_retries" ]})) /\
    entry w' = stored_tcp_entry.
Proof.
  destruct (options_step_stops_at_invalid_retries answering_inverter
              (<[CONF_CONNECTION_RETRIES := PyInt 0]> (tcp_submission "BAD" "WORSE"))
              0 (World [] stored_tcp_entry))
    as (w' & data_schema & Hstep & Hentry & _).
  - vm_compute; reflexivity.
  - left. lia.
  - exists w', data_schema. split; [exact Hstep | exact Hentry].
Defined.

(** X18: what the options step returns once it has stored a
    reconfiguration depends on the reload alone.  If the reload returns, the
    step ends the flow with an empty result; if the reload raises, the form
    is shown again with the error [unknown] (or [invalid_serial], should the
    reload raise [vol.Invalid]), built from the previous configuration, while
    the stored entry is already the new one. *)
Theorem options_step_result_after_store (E : environment) (user_input : dict)
    (w : world) (model : pystr) (w1 : world) :
  reconfiguration_passes E (current_config_of (entry w)) user_input w model w1 ->
  (async_reload E = Ok tt ->
   async_step_init E (Some user_input) w =
     (World
        (log w1 ++
         [EvUpdateEntry
            (<["model" := PyStr model]> (user_input ∪ current_config_of (entry w))) ∅;
          EvReload])
        (ConfigEntry
           (<["model" := PyStr model]> (user_input ∪ current_config_of (entry w))) ∅),
      Ok (CreateEntry (Str EmptyString) ∅))) /\
  (forall e, async_reload E = Raise e ->
   exists w' serial_ports,
     async_step_init E (Some user_input) w =
       (w',
        Ok (ShowForm "init"
              (if py_eq (get_or (current_config_of (entry w)) CONF_PROTOCOL PROTOCOL_TCP)
                        PROTOCOL_TCP
               then tcp_options_schema (current_config_of (entry w))
               else rtu_options_schema serial_ports (current_config_of (entry w)))
              {[ "base" := if is_Invalid e then "invalid_serial" else "unknown" ]})) /\
     entry w' =
       ConfigEntry
         (<["model" := PyStr model]> (user_input ∪ current_config_of (entry w))) ∅).
Proof.
  intros [[n Hn] [Hm Hp]].
  unfold async_step_init, getitem, get_serial_ports.
  split; [intros Hreload | intros e Hreload];
    io_unfold; cbn; rewrite Hn; cbn; rewrite no_errors_empty;
    destruct (py_eq (get_or (current_config_of (entry w)) CONF_PROTOCOL PROTOCOL_TCP)
                PROTOCOL_TCP).
  - destruct Hp as (host & port & dongle & inverter & -> & -> & -> & -> & -> & -> & Hp).
    cbn. rewrite no_errors_empty. cbn. rewrite Hp. cbn. cbn in Hm. rewrite Hm. cbn.
    rewrite no_errors_empty. cbn. rewrite Hreload. cbn. rewrite <- app_assoc. reflexivity.
  - destruct Hp as (a & b & c & d & e' & f & -> & -> & -> & -> & -> & -> & Hp).
    cbn. rewrite Hp. cbn. cbn in Hm. rewrite Hm. cbn.
    rewrite no_errors_empty. cbn. rewrite Hreload. cbn. rewrite <- app_assoc. reflexivity.
  - destruct Hp as (host & port & dongle & inverter & -> & -> & -> & -> & -> & -> & Hp).
    cbn. rewrite no_errors_empty. cbn. rewrite Hp. cbn. cbn in Hm. rewrite Hm. cbn.
    rewrite no_errors_empty. cbn. rewrite Hreload. cbn.
    destruct (is_Invalid e); cbn; eexists; exists []; (split; reflexivity).
  - destruct Hp as (a & b & c & d & e' & f & -> & -> & -> & -> & -> & -> & Hp).
    cbn. rewrite Hp. cbn. cbn in Hm. rewrite Hm. cbn.
    rewrite no_errors_empty. cbn. rewrite Hreload. cbn.
    destruct (is_Invalid e); cbn;
      destruct (comports E) as [[| port ports] | e2]; cbn;
      do 2 eexists; (split; reflexivity).
Qed.

(** The reconfiguration of the stored TCP entry with a new inverter serial
    passes the checks of the options flow when the inverter answers. *)
Lemma stored_tcp_reconfiguration_passes :
  exists w1,
    reconfiguration_passes answering_inverter (current_config_of stored_tcp_entry)
      (tcp_submission "BA12345678" "EF12345678") (World [] stored_tcp_entry)
      (code_points "SNA") w1.
Proof.
  eexists. split; [eexists; vm_compute; reflexivity |].
  split; [reflexivity |].
  change (py_eq (get_or (current_config_of stored_tcp_entry) CONF_PROTOCOL PROTOCOL_TCP)
            PROTOCOL_TCP) with true. cbv iota.
  exists (Str "10.0.0.5"), (PyInt 8000), (Str "BA12345678"), (Str "EF12345678").
  repeat split; vm_compute; reflexivity.
Qed.

Lemma options_step_result_after_store_witness :
  exists w',
    async_step_init answering_inverter (Some (tcp_submission "BA12345678" "EF12345678"))
      (World [] stored_tcp_entry) = (w', Ok (CreateEntry (Str EmptyString) ∅)).
Proof.
  destruct stored_tcp_reconfiguration_passes as [w1 Hpass].
  destruct (options_step_result_after_store answering_inverter
              (tcp_submission "BA12345678" "EF12345678") (World [] stored_tcp_entry)
              (code_points "SNA") w1 Hpass) as [Hok _].
  eexists. apply Hok. reflexivity.
Defined.

(** X19: after a reconfiguration that passed, the stored options are
    empty and the stored data answers a lookup as follows: [model] is the
    model just probed; any other key has the submitted value if it was
    submitted, else its previous value, where a previous option took
    precedence over previous data. *)
Theorem reconfigured_entry_lookup (E : environment) (user_input : dict) (w : world)
    (model : pystr) (w1 : world) (key : string) :
  reconfiguration_passes E (current_config_of (entry w)) user_input w model w1 ->
  options (entry (async_step_init E (Some user_input) w).1) = ∅ /\
  data (entry (async_step_init E (Some user_input) w).1) !! "model" = Some (PyStr model) /\
  (key <> "model" ->
   data (entry (async_step_init E (Some user_input) w).1) !! key =
     match user_input !! key with
     | Some v => Some v
     | None =>
         match options (entry w) !! key with
         | Some v => Some v
         | None => data (entry w) !! key
         end
     end).
Proof.
  intros Hpass. destruct (async_step_init_passes _ _ _ _ _ Hpass) as [-> _]. cbn.
  split; [reflexivity |]. split; [apply lookup_insert_eq |].
  intros Hkey. rewrite lookup_insert_ne by congruence.
  unfold current_config_of. rewrite !lookup_union.
  destruct (user_input !! key), (options (entry w) !! key), (data (entry w) !! key);
    reflexivity.
Qed.

Lemma reconfigured_entry_lookup_witness :
  data (entry (async_step_init answering_inverter
                 (Some (tcp_submission "BA12345678" "EF12345678"))
                 (World [] stored_tcp_entry)).1) !! CONF_PROTOCOL = Some PROTOCOL_TCP.
Proof.
  destruct stored_tcp_reconfiguration_passes as [w1 Hpass].
  destruct (reconfigured_entry_lookup answering_inverter
              (tcp_submission "BA12345678" "EF12345678") (World [] stored_tcp_entry)
              (code_points "SNA") w1 CONF_PROTOCOL Hpass) as (_ & _ & Hkey).
  rewrite Hkey by discriminate. vm_compute. reflexivity.
Defined.

(** X20: an entry that stores no protocol is reconfigured as a TCP entry,
    like one that stores [tcp].  Its form is the TCP options form; and a
    submission with a valid retry count in which a serial is not 10
    characters long gets that form back with [invalid_serial] under each such
    serial and no other error, while nothing is called and the stored entry
    stays. *)
Theorem options_step_checks_serials_under_tcp (E : environment) (user_input : dict)
    (dongle inverter : pyval) (n : Z) (w : world) :
  current_config_of (entry w) !! CONF_PROTOCOL = None \/
    current_config_of (entry w) !! CONF_PROTOCOL = Some PROTOCOL_TCP ->
  user_input !! CONF_DONGLE_SERIAL = Some dongle ->
  user_input !! CONF_INVERTER_SERIAL = Some inverter ->
  validate_connection_retries (int_of_str E)
    (get_or user_input CONF_CONNECTION_RETRIES (PyInt DEFAULT_CONNECTION_RETRIES)) = Ok n ->
  length (py_str dongle) <> 10%nat \/ length (py_str inverter) <> 10%nat ->
  async_step_init E None w =
    (w, Ok (ShowForm "init" (tcp_options_schema (current_config_of (entry w))) ∅)) /\
  exists errors : errors_dict,
    async_step_init E (Some user_input) w =
      (w, Ok (ShowForm "init" (tcp_options_schema (current_config_of (entry w))) errors)) /\
    errors !! CONF_DONGLE_SERIAL =
      (if Nat.eqb (length (py_str dongle)) 10 then None else Some "invalid_serial") /\
    errors !! CONF_INVERTER_SERIAL =
      (if Nat.eqb (length (py_str inverter)) 10 then None else Some "invalid_serial") /\
    errors !! CONF_CONNECTION_RETRIES = None /\
    errors !! "base" = None.
Proof.
  intros Hproto Hd Hi Hn Hbad.
  assert (py_eq (get_or (current_config_of (entry w)) CONF_PROTOCOL PROTOCOL_TCP)
            PROTOCOL_TCP = true) as Htcp.
  { unfold get_or. destruct Hproto as [-> | ->]; reflexivity. }
  split.
  - unfold async_step_init. io_unfold. cbn. rewrite Htcp. cbn. destruct w; reflexivity.
  - unfold async_step_init, getitem, validate_serial. rewrite Hd, Hi. io_unfold. cbn.
    rewrite Hn. cbn. rewrite no_errors_empty. rewrite Htcp. cbn.
    destruct (Nat.eqb (length (py_str dongle)) 10) eqn:Hld;
      destruct (Nat.eqb (length (py_str inverter)) 10) eqn:Hli; cbn;
      rewrite ?no_errors_insert; cbn; rewrite ?Htcp; cbn.
    1: { exfalso. apply Nat.eqb_eq in Hld, Hli. tauto. }
    all: destruct w; eexists; (split; [reflexivity |]); repeat split; reflexivity.
Qed.

Lemma options_step_checks_serials_under_tcp_witness :
  exists errors : errors_dict,
    async_step_init answering_inverter (Some (tcp_submission "BA12345678" "SHORT"))
      (World [] stored_tcp_entry) =
      (World [] stored_tcp_entry,
       Ok (ShowForm "init" (tcp_options_schema (current_config_of stored_tcp_entry))
             errors)) /\
    errors !! CONF_INVERTER_SERIAL = Some "invalid_serial".
Proof.
  destruct (options_step_checks_serials_under_tcp answering_inverter
              (tcp_submission "BA12345678" "SHORT") (Str "BA12345678") (Str "SHORT") 3
              (World [] stored_tcp_entry))
    as (_ & errors & Hstep & _ & Hi & _).
  - right. vm_compute; reflexivity.
  - vm_compute; reflexivity.
  - vm_compute; reflexivity.
  - vm_compute; reflexivity.
  - right. vm_compute. discriminate.
  - exists errors. split; [exact Hstep | exact Hi].
Defined.

(** ** More on the schemas *)

(** X21: every default of the forms of the setup flow passes the
    validator of its own field, so a form submitted as offered, with the
    fields that have no default filled in validly, goes through its schema. *)
Theorem setup_defaults_pass_validation (serial_ports : list pystr) :
  Forall (fun f => forall d, f_default f = Some d -> accepts (f_check f) d = true)
    user_data_schema /\
  Forall (fun f => forall d, f_default f = Some d -> accepts (f_check f) d = true)
    tcp_data_schema /\
  Forall (fun f => forall d, f_default f = Some d -> accepts (f_check f) d = true)
    (rtu_data_schema serial_ports).
Proof.
  repeat split; repeat constructor; cbn [f_default f_check];
    intros d Hd; first [discriminate Hd | injection Hd as <-; reflexivity].
Qed.

(** What a dictionary that went through the TCP schema holds. *)
Lemma satisfies_tcp_fields (d : dict) :
  satisfies tcp_data_schema d = true ->
  exists host port dongle inverter,
    d !! CONF_HOST = Some (PyStr host) /\ d !! CONF_PORT = Some port /\
    d !! CONF_DONGLE_SERIAL = Some (PyStr dongle) /\
    d !! CONF_INVERTER_SERIAL = Some (PyStr inverter).
Proof.
  intros H.
  pose proof (satisfies_field _ _ (Field Required CONF_HOST None vol_str) H) as Hh.
  pose proof (satisfies_field _ _
                (Field Required CONF_PORT (Some (PyInt DEFAULT_PORT)) vol_int) H) as Hp.
  pose proof (satisfies_field _ _ (Field Required CONF_DONGLE_SERIAL None vol_str) H) as Hd.
  pose proof (satisfies_field _ _ (Field Required CONF_INVERTER_SERIAL None vol_str) H) as Hi.
  cbn [f_key f_check f_marker f_default] in *.
  destruct (d !! CONF_HOST) as [[| | | host] |];
    [| | | | destruct Hh as [Hh _]; [simpl; tauto | discriminate]];
    try (discriminate Hh; simpl; tauto).
  destruct (d !! CONF_PORT) as [port |];
    [| destruct Hp as [Hp _]; [simpl; tauto | discriminate]].
  destruct (d !! CONF_DONGLE_SERIAL) as [[| | | dongle] |];
    [| | | | destruct Hd as [Hd _]; [simpl; tauto | discriminate]];
    try (discriminate Hd; simpl; tauto).
  destruct (d !! CONF_INVERTER_SERIAL) as [[| | | inverter] |];
    [| | | | destruct Hi as [Hi _]; [simpl; tauto | discriminate]];
    try (discriminate Hi; simpl; tauto).
  eauto 10.
Qed.

Lemma validate_connection_retries_inv (f : pystr -> option Z) (value : pyval) (n : Z) :
  validate_connection_retries f value = Ok n ->
  exists m, py_int f value = Ok m /\ (1 <= m <= 10)%Z.
Proof.
  unfold validate_connection_retries.
  destruct (py_int f value) as [m | e]; [| discriminate]. simpl.
  destruct (Z.ltb_spec m 1); simpl; [discriminate |].
  rewrite Z.gtb_ltb. destruct (Z.ltb_spec 10 m); [discriminate |].
  intros _. exists m. split; [reflexivity | lia].
Qed.

(** What a dictionary that went through the RTU schema holds. *)
Lemma satisfies_rtu_fields (f : pystr -> option Z) (serial_ports : list pystr) (d : dict) :
  satisfies (rtu_data_schema serial_ports) d = true ->
  exists serial_port baudrate parity stopbits bytesize slave_id z n,
    d !! CONF_SERIAL_PORT = Some serial_port /\ d !! CONF_BAUDRATE = Some baudrate /\
    d !! CONF_PARITY = Some parity /\ d !! CONF_STOPBITS = Some stopbits /\
    d !! CONF_BYTESIZE = Some bytesize /\ d !! CONF_SLAVE_ID = Some slave_id /\
    int_value slave_id = Some z /\
    validate_connection_retries f
      (get_or d CONF_CONNECTION_RETRIES (PyInt DEFAULT_CONNECTION_RETRIES)) = Ok n.
Proof.
  intros H.
  assert (forall fld, In fld (rtu_data_schema serial_ports) -> f_marker fld = Required ->
                      exists v, d !! f_key fld = Some v /\ accepts (f_check fld) v = true)
    as Hreq.
  { intros fld Hin Hm. pose proof (satisfies_field _ _ fld H Hin) as Hf.
    destruct (d !! f_key fld) as [v |]; [eauto |].
    destruct Hf as [Hf _]. congruence. }
  destruct (Hreq (Field Required CONF_SERIAL_PORT None (vol_In (map PyStr serial_ports))))
    as (v1 & H1 & _); [simpl; tauto | reflexivity |].
  destruct (Hreq (Field Required CONF_BAUDRATE (Some (PyInt DEFAULT_BAUDRATE))
                    (vol_In BAUDRATE_OPTIONS)))
    as (v2 & H2 & _); [simpl; tauto | reflexivity |].
  destruct (Hreq (Field Required CONF_PARITY (Some DEFAULT_PARITY) (vol_In PARITY_OPTIONS)))
    as (v3 & H3 & _); [simpl; tauto | reflexivity |].
  destruct (Hreq (Field Required CONF_STOPBITS (Some (PyInt DEFAULT_STOPBITS))
                    (vol_In STOPBITS_OPTIONS)))
    as (v4 & H4 & _); [simpl; tauto | reflexivity |].
  destruct (Hreq (Field Required CONF_BYTESIZE (Some (PyInt DEFAULT_BYTESIZE))
                    (vol_In BYTESIZE_OPTIONS)))
    as (v5 & H5 & _); [simpl; tauto | reflexivity |].
  destruct (Hreq (Field Required CONF_SLAVE_ID (Some (PyInt DEFAULT_SLAVE_ID))
                    (vol_All [vol_int; vol_Range 1 247])))
    as (v6 & H6 & Ha6); [simpl; tauto | reflexivity |].
  destruct (Hreq (Field Required CONF_CONNECTION_RETRIES
                    (Some (PyInt DEFAULT_CONNECTION_RETRIES))
                    (vol_All [vol_int; vol_Range 1 10])))
    as (v7 & H7 & Ha7); [simpl; tauto | reflexivity |].
  cbn [f_key f_check] in *.
  apply accepts_int_range in Ha6 as (z & Hz & _).
  apply accepts_int_range in Ha7 as (n & Hn & Hrange).
  exists v1, v2, v3, v4, v5, v6, z, n.
  repeat split; try assumption.
  unfold get_or. rewrite H7. apply validate_connection_retries_Ok; assumption.
Qed.

(** X22: a submission that went through the schema of its form is always
    handled.  The TCP step does not raise: it asks for an entry, or shows the
    form with the single error [model_fetch_failed], or, having called
    nothing, shows the form with [invalid_serial] under a serial and no error
    for the retry count.  The RTU step does not raise either: it asks for an
    entry or shows the form with the single error [model_fetch_failed_rtu];
    [unknown] and [invalid_connection_retries] do not occur. *)
Theorem schema_checked_submissions_are_handled (E : environment) (user_input : dict)
    (serial_ports : list pystr) (w : world) :
  (satisfies tcp_data_schema user_input = true ->
   exists w' result,
     async_step_tcp E (Some user_input) w = (w', Ok result) /\
     ((exists title entry_data, result = CreateEntry title entry_data) \/
      result = ShowForm "tcp" tcp_data_schema {[ "base" := "model_fetch_failed" ]} \/
      (exists errors : errors_dict,
         result = ShowForm "tcp" tcp_data_schema errors /\ w' = w /\
         errors !! CONF_CONNECTION_RETRIES = None /\ errors !! "base" = None /\
         (errors !! CONF_DONGLE_SERIAL = Some "invalid_serial" \/
          errors !! CONF_INVERTER_SERIAL = Some "invalid_serial")))) /\
  (satisfies (rtu_data_schema serial_ports) user_input = true ->
   exists w' result,
     async_step_rtu E (Some user_input) w = (w', Ok result) /\
     ((exists title entry_data, result = CreateEntry title entry_data) \/
      exists offered,
        result = ShowForm "rtu" (rtu_data_schema offered)
                   {[ "base" := "model_fetch_failed_rtu" ]})).
Proof.
  split; intros Hs.
  - destruct (satisfies_tcp_fields _ Hs) as (host & port & dongle & inverter &
                                            Hh & Hp & Hd & Hi).
    destruct (satisfies_tcp_retries (int_of_str E) _ Hs) as [n Hn].
    destruct (Nat.eq_dec (length dongle) 10) as [Hld | Hld];
      [destruct (Nat.eq_dec (length inverter) 10) as [Hli | Hli] |].
    + destruct (async_step_tcp_valid E user_input _ _ _ _ n w Hh Hp Hd Hi Hld Hli Hn)
        as (w1 & model & _ & Hstep).
      exists w1. eexists. split; [exact Hstep |].
      destruct (truthy (model_value model)); eauto.
    + assert (exists m, py_int (int_of_str E)
                (get_or user_input CONF_CONNECTION_RETRIES
                   (PyInt DEFAULT_CONNECTION_RETRIES)) = Ok m /\ (1 <= m <= 10)%Z)
        as (m & Hm & Hrange) by (apply validate_connection_retries_inv with n; exact Hn).
      destruct (async_step_tcp_invalid E user_input _ _ m w Hd Hi Hm)
        as (errors & Hstep & He1 & He2 & He3 & He4); [simpl; tauto |].
      exists w. eexists. split; [exact Hstep |]. right. right.
      exists errors. split; [reflexivity |]. split; [reflexivity |].
      split; [| split; [exact He4 |]].
      * rewrite He3.
        replace (1 <=? m)%Z with true by (symmetry; apply Z.leb_le; lia).
        replace (m <=? 10)%Z with true by (symmetry; apply Z.leb_le; lia). reflexivity.
      * right. rewrite He2. simpl.
        replace (Nat.eqb (length inverter) 10) with false
          by (symmetry; apply Nat.eqb_neq; exact Hli).
        reflexivity.
    + assert (exists m, py_int (int_of_str E)
                (get_or user_input CONF_CONNECTION_RETRIES
                   (PyInt DEFAULT_CONNECTION_RETRIES)) = Ok m /\ (1 <= m <= 10)%Z)
        as (m & Hm & Hrange) by (apply validate_connection_retries_inv with n; exact Hn).
      destruct (async_step_tcp_invalid E user_input _ _ m w Hd Hi Hm)
        as (errors & Hstep & He1 & He2 & He3 & He4); [simpl; tauto |].
      exists w. eexists. split; [exact Hstep |]. right. right.
      exists errors. split; [reflexivity |]. split; [reflexivity |].
      split; [| split; [exact He4 |]].
      * rewrite He3.
        replace (1 <=? m)%Z with true by (symmetry; apply Z.leb_le; lia).
        replace (m <=? 10)%Z with true by (symmetry; apply Z.leb_le; lia). reflexivity.
      * left. rewrite He1. simpl.
        replace (Nat.eqb (length dongle) 10) with false
          by (symmetry; apply Nat.eqb_neq; exact Hld).
        reflexivity.
  - destruct (satisfies_rtu_fields (int_of_str E) _ _ Hs)
      as (v1 & v2 & v3 & v4 & v5 & v6 & z & n & H1 & H2 & H3 & H4 & H5 & H6 & Hz & Hn).
    destruct (async_step_rtu_valid E user_input _ _ _ _ _ _ z n w H1 H2 H3 H4 H5 H6 Hz Hn)
      as (w1 & model & _ & Hstep).
    destruct (truthy (model_value model)).
    + destruct Hstep as (padded & _ & Hstep). do 2 eexists. split; [exact Hstep |]. eauto.
    + destruct Hstep as (offered & _ & Hstep). do 2 eexists. split; [exact Hstep |]. eauto.
Qed.
